(** * LLM-Checkmate agent: a shallow embedding of the scan pipeline

    The four Python modules of [llm_checkmate_agent] are embedded one Rocq
    module each ([Sender], [DeviceId], [Scanner], [Cli]), on top of two
    support modules: [Text] (the [str] methods the code calls) and [Py]
    (Python values, exceptions and the effect monad).

    Modelling conventions.
    - A [str] is a [string]; a character is a code point below 256.
    - A Python [dict] is an association list in insertion order, a [list] is
      a [list]; JSON documents and the report payload are [pyval]s.
    - A [float] is the rational it denotes.  The code only builds floats as
      [round(n / 2**k, 2)]; the quotient by a power of two is exact on
      binary64 for the magnitudes a host reports (below [2^53]) and [round]
      rounds the exact value half-to-even, so the float is identified with
      its number of hundredths.  The statements that depend on the value of
      such a float carry the bound as a hypothesis ([float_exact]).
    - [print] does not fail: the standard output is taken to accept the
      text of every line (a UTF-8 console).
    - Everything the code asks of the machine (psutil, platform, GPUtil,
      torch, wmic, the HTTP endpoint, the clock, the random source) is a
      field of the [host] record: an answer, or the exception it raises.
    - Effects are threaded through the monad [Py.M]: the state holds the
      configuration directory and a chronological log of the external
      calls, printed lines, log records and requests made. *)

From Stdlib Require Import ZArith QArith Qround Qabs String Ascii List Bool.
From Stdlib Require Import Lia Lqa.
From Stdlib Require Import DecimalString.
Import ListNotations.

Set Warnings "-register-all".

Local Open Scope string_scope.
Local Open Scope Z_scope.

(* ===================================================================== *)
(** ** [str] methods *)
(* ===================================================================== *)

Module Text.

(** [s.endswith(suf)]: [s] is [suf], or the tail of [s] ends with [suf]. *)
Fixpoint endswith (s suf : string) : bool :=
  if String.eqb s suf then true
  else match s with
       | EmptyString => false
       | String _ s' => endswith s' suf
       end.

(** [s.rstrip(chars)] for the character set [p]. *)
Fixpoint rstrip_by (p : ascii -> bool) (s : string) : string :=
  match s with
  | EmptyString => EmptyString
  | String a s' =>
      match rstrip_by p s' with
      | EmptyString => if p a then EmptyString else String a EmptyString
      | r => String a r
      end
  end.

(** [s.lstrip(chars)]. *)
Fixpoint lstrip_by (p : ascii -> bool) (s : string) : string :=
  match s with
  | EmptyString => EmptyString
  | String a s' => if p a then lstrip_by p s' else s
  end.

(** [s.rstrip(c)] with a one-character argument. *)
Definition rstrip (c : ascii) (s : string) : string :=
  rstrip_by (Ascii.eqb c) s.

(** The code points below 256 that [str.isspace] accepts: TAB..CR,
    FS..US, space, NEL and NBSP. *)
Definition isspace (a : ascii) : bool :=
  let n := nat_of_ascii a in
  ((9 <=? n) && (n <=? 13) || (28 <=? n) && (n <=? 32)
   || (n =? 133) || (n =? 160))%nat.

(** [s.strip()]. *)
Definition strip (s : string) : string :=
  lstrip_by isspace (rstrip_by isspace s).

Definition string_of_rev (cur : list ascii) : string :=
  string_of_list_ascii (rev cur).

(** [s.split(sep)] for a non-empty separator: scan from the left, cut at
    every occurrence, resume after it.  [skip] counts the characters of a
    matched separator still to pass over; [cur] is the current piece,
    reversed. *)
Fixpoint split_go (sep : string) (skip : nat) (cur : list ascii)
    (s : string) : list string :=
  match s with
  | EmptyString => [string_of_rev cur]
  | String c s' =>
      match skip with
      | S k => split_go sep k cur s'
      | O =>
          if String.prefix sep s
          then string_of_rev cur
                 :: split_go sep (String.length sep - 1) [] s'
          else split_go sep 0 (c :: cur) s'
      end
  end.

Definition split (sep s : string) : list string := split_go sep 0 [] s.

(** [s.replace(old, new)] for a non-empty [old]. *)
Definition replace (old new s : string) : string :=
  String.concat new (split old s).

(** [sub in s] on two strings. *)
Fixpoint contains (sub s : string) : bool :=
  if String.prefix sub s then true
  else match s with
       | EmptyString => false
       | String _ s' => contains sub s'
       end.

(** [c * n]. *)
Fixpoint repeat_char (c : ascii) (n : nat) : string :=
  match n with
  | O => EmptyString
  | S k => String c (repeat_char c k)
  end.

Definition is_digit (a : ascii) : bool :=
  let n := nat_of_ascii a in ((48 <=? n) && (n <=? 57))%nat.

Definition digit_val (a : ascii) : Z := Z.of_nat (nat_of_ascii a) - 48.

(** Digits of an [int] literal as [int()] reads them: one or more digits,
    single underscores allowed between digits.  [acc] is the value so far,
    [prev] tells whether the previous character was a digit. *)
Fixpoint int_digits (acc : Z) (prev : bool) (s : string) : option Z :=
  match s with
  | EmptyString => if prev then Some acc else None
  | String a s' =>
      if is_digit a then int_digits (10 * acc + digit_val a) true s'
      else if Ascii.eqb a "_" then
             if prev then int_digits acc false s' else None
           else None
  end.

(** [int(s)] in base 10: surrounding white space, an optional sign, then
    the digits; [None] stands for [ValueError]. *)
Definition py_int (s : string) : option Z :=
  match strip s with
  | String "-" d => option_map Z.opp (int_digits 0 false d)
  | String "+" d => int_digits 0 false d
  | d => int_digits 0 false d
  end.

(** [str(n)] for an [int]. *)
Definition str_of_Z (n : Z) : string :=
  NilZero.string_of_int (Z.to_int n).

End Text.

(* ===================================================================== *)
(** ** Python values, exceptions and the effect monad *)
(* ===================================================================== *)

Module Py.

(** The values the agent handles: what [json.load] can produce and what
    the collectors put in the report. *)
Inductive pyval : Type :=
| PyNone
| PyBool (b : bool)
| PyInt (n : Z)
| PyFloat (q : Q)
| PyStr (s : string)
| PyList (xs : list pyval)
| PyDict (kvs : list (string * pyval)).

(** Exception classes.  The three classes of [requests.exceptions] that
    [send_data] names are kept apart, with the two library classes that
    inherit from them in a way that matters ([ConnectTimeout] is both a
    [ConnectionError] and a [Timeout]); every other subclass of
    [Exception] is [OtherError] with its class name. *)
Inductive exc_class : Type :=
| Timeout
| ConnectTimeout
| ReadTimeout
| ConnectionError
| HTTPError
| OtherError (name : string).

Record exc : Type := mkExc { cls : exc_class; msg : string }.

(** [isinstance(e, Timeout)], [isinstance(e, ConnectionError)],
    [isinstance(e, HTTPError)]. *)
Definition is_Timeout (e : exc) : bool :=
  match cls e with
  | Timeout | ConnectTimeout | ReadTimeout => true
  | _ => false
  end.

Definition is_ConnectionError (e : exc) : bool :=
  match cls e with
  | ConnectionError | ConnectTimeout => true
  | _ => false
  end.

Definition is_HTTPError (e : exc) : bool :=
  match cls e with
  | HTTPError => true
  | _ => false
  end.

(** What an external facility gives back: a value, or an exception (a
    subclass of [Exception]). *)
Inductive answer (A : Type) : Type :=
| Got (a : A)
| Failed (e : exc).
Arguments Got {A} a.
Arguments Failed {A} e.

(** One piece of a printed or logged line: literal text, or the default
    formatting of a value in an f-string. *)
Inductive fragment : Type :=
| Lit (s : string)
| Fmt (v : pyval).

Inductive level : Type := INFO | WARNING | ERROR | CRITICAL.

(** External facilities a run can consult. *)
Inductive facility : Type :=
| GPUtil_getGPUs
| Import_torch
| Torch_cuda
| Torch_mps
| Wmic_video
| Wmic_cpu
| Psutil_cpu
| Psutil_memory
| Psutil_disk
| Read_device_file
| Uuid4.

Inductive event : Type :=
| Consulted (f : facility)
| Printed (line : list fragment)
| Logged (l : level) (line : list fragment)
| Posted (url : string) (body : pyval) (headers : list (string * string))
    (timeout : Z)
| MadeDir
| Wrote (content : pyval).

(** The identity file: whether it can be opened for reading, and what
    [json.load] makes of its text ([None]: not JSON). *)
Record device_file : Type := mkFile {
  readable : bool;
  parsed : option pyval
}.

(** The configuration directory [~/.llm_checkmate]: missing, or present
    with or without [device.json]. *)
Inductive config_store : Type :=
| NoDir
| Dir (f : option device_file).

(** The state a run threads: the configuration directory, the list
    [gpus] that the [try] blocks of [get_gpu_info] append to (what was
    appended before an exception stays appended), and the log. *)
Record state : Type := mkState {
  store : config_store;
  gpus : list pyval;
  log : list event
}.

(** Outcome of a computation: a value, a raised exception, or the
    [SystemExit] of [sys.exit(code)], which no [except Exception] sees. *)
Inductive result (A : Type) : Type :=
| Ok (a : A)
| Raise (e : exc)
| Exit (code : Z).
Arguments Ok {A} a.
Arguments Raise {A} e.
Arguments Exit {A} code.

Definition M (A : Type) : Type := state -> result A * state.

Definition ret {A} (a : A) : M A := fun st => (Ok a, st).

Definition bind {A B} (m : M A) (k : A -> M B) : M B :=
  fun st =>
    match m st with
    | (Ok a, st') => k a st'
    | (Raise e, st') => (Raise e, st')
    | (Exit c, st') => (Exit c, st')
    end.

Definition raise {A} (e : exc) : M A := fun st => (Raise e, st).

Definition sys_exit {A} (code : Z) : M A := fun st => (Exit code, st).

(** [try: m / except Exception as e: h e]. *)
Definition try_except {A} (m : M A) (h : exc -> M A) : M A :=
  fun st =>
    match m st with
    | (Raise e, st') => h e st'
    | r => r
    end.

Definition emit (ev : event) : M unit :=
  fun st => (Ok tt, mkState (store st) (gpus st) (log st ++ [ev])).

Definition get_store : M config_store := fun st => (Ok (store st), st).

Definition put_store (c : config_store) : M unit :=
  fun st => (Ok tt, mkState c (gpus st) (log st)).

Definition get_gpus : M (list pyval) := fun st => (Ok (gpus st), st).

Definition set_gpus (g : list pyval) : M unit :=
  fun st => (Ok tt, mkState (store st) g (log st)).

(** [gpus.append(entry)]. *)
Definition append_gpu (entry : pyval) : M unit :=
  fun st => (Ok tt, mkState (store st) (gpus st ++ [entry]) (log st)).

(** Calling an external facility: the call is recorded, then its answer
    is returned or its exception raised. *)
Definition consult {A} (f : facility) (a : answer A) : M A :=
  fun st =>
    let st' := mkState (store st) (gpus st) (log st ++ [Consulted f]) in
    match a with
    | Got v => (Ok v, st')
    | Failed e => (Raise e, st')
    end.

(** An answer already obtained (an attribute read, a second call on the
    same object). *)
Definition lift {A} (a : answer A) : M A :=
  match a with
  | Got v => ret v
  | Failed e => raise e
  end.

(** [try: m / except: pass]. *)
Definition try_pass (m : M unit) : M unit :=
  fun st =>
    match m st with
    | (Ok _, st') | (Raise _, st') | (Exit _, st') => (Ok tt, st')
    end.

(** [for x in xs: body x]. *)
Fixpoint for_each {A} (xs : list A) (body : A -> M unit) : M unit :=
  match xs with
  | [] => ret tt
  | x :: rest => bind (body x) (fun _ => for_each rest body)
  end.

(** [print(...)], on a standard output that accepts the text. *)
Definition print (line : list fragment) : M unit := emit (Printed line).

Definition logger (l : level) (line : list fragment) : M unit :=
  emit (Logged l line).

Declare Scope py_scope.
Delimit Scope py_scope with py.
Notation "x <- m ;; k" := (bind m (fun x => k))
  (at level 61, m at next level, right associativity) : py_scope.
Notation "m ;;; k" := (bind m (fun _ => k))
  (at level 61, right associativity) : py_scope.

(** [d[k]] on a dict: the binding, or [KeyError]. *)
Fixpoint lookup (k : string) (kvs : list (string * pyval)) : option pyval :=
  match kvs with
  | [] => None
  | (k', v) :: rest => if String.eqb k k' then Some v else lookup k rest
  end.

Definition keys (kvs : list (string * pyval)) : list string := map fst kvs.

(** [bool(v)]. *)
Definition truthy (v : pyval) : bool :=
  match v with
  | PyNone => false
  | PyBool b => b
  | PyInt n => negb (n =? 0)
  | PyFloat q => negb (Qeq_bool q 0)
  | PyStr s => negb (String.eqb s "")
  | PyList xs => match xs with [] => false | _ => true end
  | PyDict kvs => match kvs with [] => false | _ => true end
  end.

Definition type_error (m : string) : exc := mkExc (OtherError "TypeError") m.
Definition key_error (k : string) : exc := mkExc (OtherError "KeyError") k.

(** [v[k]] with a string subscript [k]. *)
Definition getitem (v : pyval) (k : string) : M pyval :=
  match v with
  | PyDict kvs =>
      match lookup k kvs with
      | Some x => ret x
      | None => raise (key_error k)
      end
  | PyList _ => raise (type_error "list indices must be integers or slices, not str")
  | PyStr _ => raise (type_error "string indices must be integers, not 'str'")
  | _ => raise (type_error "object is not subscriptable")
  end.

(** [k in v] with a string [k]: key of a dict, element of a list,
    substring of a string; [TypeError] on anything else. *)
Definition str_in (k : string) (v : pyval) : M bool :=
  match v with
  | PyDict kvs =>
      ret (match lookup k kvs with Some _ => true | None => false end)
  | PyList xs =>
      ret (existsb (fun x => match x with
                             | PyStr s => String.eqb s k
                             | _ => false
                             end) xs)
  | PyStr s => ret (Text.contains k s)
  | _ => raise (type_error "argument is not iterable")
  end.

(** [round(x, 2)] on the exact value [x]: the nearest multiple of 1/100,
    ties to the even one. *)
Definition round_half_even (x : Q) : Z :=
  let f := Qfloor x in
  let r := (x - inject_Z f)%Q in
  match (r ?= 1 # 2)%Q with
  | Lt => f
  | Gt => f + 1
  | Eq => if Z.even f then f else f + 1
  end.

Definition round2 (x : Q) : Q := Qred (round_half_even (x * 100) # 100).

(** A state with nothing in it. *)
Definition blank : state := mkState NoDir [] [].

(** What a computation appends to [gpus] and to the log when started
    from [blank]. *)
Definition yield {A} (m : M A) : list pyval := gpus (snd (m blank)).
Definition calls_of {A} (m : M A) : list event := log (snd (m blank)).

(** A computation that leaves the store alone, whose outcome, appended
    entries and logged events do not depend on the state it starts in, and
    which logs events of the kind [P] only. *)
Definition uniform {A} (P : event -> Prop) (m : M A) : Prop :=
  exists r g l,
    Forall P l
    /\ forall st, m st = (r, mkState (store st) (gpus st ++ g) (log st ++ l)).

(** A computation that only adds to the log, and adds events of the kind
    [P] only. *)
Definition logs {A} (P : event -> Prop) (m : M A) : Prop :=
  forall st, exists l, log (snd (m st)) = (log st ++ l)%list /\ Forall P l.

(** The events a computation adds to the log of the state it starts in. *)
Definition new_events {A} (m : M A) (st : state) : list event :=
  skipn (length (log st)) (log (snd (m st))).

(** The event is not an HTTP request. *)
Definition no_request (e : event) : Prop :=
  match e with
  | Posted _ _ _ _ => False
  | _ => True
  end.

(** A computation that leaves the configuration directory as it is. *)
Definition keeps_store {A} (m : M A) : Prop :=
  forall st, store (snd (m st)) = store st.

(** The requests among some events: URL and body. *)
Definition requests (l : list event) : list (string * pyval) :=
  flat_map (fun e => match e with
                     | Posted url body _ _ => [(url, body)]
                     | _ => []
                     end) l.

(** An external facility failed. *)
Definition failed {A} (a : answer A) : Prop :=
  match a with
  | Failed _ => True
  | Got _ => False
  end.

(** The lines of the [WARNING] records among some events. *)
Definition warnings (l : list event) : list (list fragment) :=
  flat_map (fun e => match e with
                     | Logged WARNING line => [line]
                     | _ => []
                     end) l.

End Py.

(* ===================================================================== *)
(** ** sender.py *)
(* ===================================================================== *)

Module Sender.
Import Py.
Local Open Scope py_scope.

(** A [requests.Response]: the status line and what [response.json()]
    gives. *)
Record response : Type := mkResponse {
  status_code : Z;
  reason : string;
  json : answer pyval
}.

(** The endpoint as the agent sees it: what [requests.post] does for a
    URL and a body. *)
Definition endpoint : Type := string -> pyval -> answer response.

Definition register_path : string := "/api/device/register".

(** The first statement of [send_data]: the URL the request goes to. *)
Definition target_url (api_url : string) : string :=
  if negb (Text.endswith api_url register_path)
  then Text.rstrip "/" api_url ++ register_path
  else api_url.

Definition headers : list (string * string) :=
  [("Content-Type", "application/json");
   ("User-Agent", "LLM-Checkmate-Agent/1.0")].

(** [requests.post(url, json=body, headers=headers, timeout=10)]. *)
Definition post (net : endpoint) (url : string) (body : pyval) : M response :=
  emit (Posted url body headers 10) ;;;
  lift (net url body).

(** [response.raise_for_status()]: [HTTPError] on a 4xx or 5xx status. *)
Definition raise_for_status (url : string) (r : response) : M unit :=
  let s := status_code r in
  if (400 <=? s) && (s <? 500) then
    raise (mkExc HTTPError
             (Text.str_of_Z s ++ " Client Error: " ++ reason r
                ++ " for url: " ++ url))
  else if (500 <=? s) && (s <? 600) then
    raise (mkExc HTTPError
             (Text.str_of_Z s ++ " Server Error: " ++ reason r
                ++ " for url: " ++ url))
  else ret tt.

(** The [except] clauses of [send_data], tried in the order written. *)
Definition on_failure (e : exc) : M (bool * pyval) :=
  if is_Timeout e then
    logger ERROR [Lit "Request timed out. Is the backend server running?"] ;;;
    ret (false, PyStr "Timeout")
  else if is_ConnectionError e then
    logger ERROR [Lit "Connection failed. Is the backend reachable?"] ;;;
    ret (false, PyStr "Connection Error")
  else if is_HTTPError e then
    logger ERROR [Lit "HTTP Error: "; Lit (msg e)] ;;;
    ret (false, PyStr ("HTTP Error: " ++ msg e))
  else
    logger CRITICAL [Lit "Unexpected error while sending data: "; Lit (msg e)] ;;;
    ret (false, PyStr (msg e)).

Definition send_data (net : endpoint) (report_data : pyval)
    (api_url : string) : M (bool * pyval) :=
  let api_url := target_url api_url in
  try_except
    (response <- post net api_url report_data ;;
     raise_for_status api_url response ;;;
     logger INFO [Lit "Successfully sent hardware report. Status code: ";
                  Fmt (PyInt (status_code response))] ;;;
     body <- lift (json response) ;;
     ret (true, body))
    on_failure.

End Sender.

(* ===================================================================== *)
(** ** device_id.py *)
(* ===================================================================== *)

Module DeviceId.
Import Py.
Local Open Scope py_scope.

(** What happens when the identity file is opened for writing and the
    record dumped into it. *)
Inductive write_outcome : Type :=
| WriteOk
| OpenFails (e : exc)
| DumpFails (e : exc).

(** The machine as [device_id.py] sees it. *)
Record host : Type := mkHost {
  makedirs : answer unit;      (* os.makedirs(CONFIG_DIR) *)
  urandom : Z;                 (* the 16 bytes uuid4 draws, big-endian *)
  now : string;                (* str(datetime.now()) *)
  write : write_outcome        (* open(DEVICE_FILE, "w") and json.dump *)
}.

(** *** [str(uuid.uuid4())], after the standard library *)

Definition hex_digit (d : Z) : ascii :=
  match d with
  | 0 => "0" | 1 => "1" | 2 => "2" | 3 => "3" | 4 => "4" | 5 => "5"
  | 6 => "6" | 7 => "7" | 8 => "8" | 9 => "9" | 10 => "a" | 11 => "b"
  | 12 => "c" | 13 => "d" | 14 => "e" | _ => "f"
  end%char.

Definition nibble (n : Z) (i : nat) : Z :=
  Z.land (Z.shiftr n (4 * Z.of_nat i)) 15.

(** ['%0<width>x' % n] for [0 <= n < 16^width]. *)
Fixpoint hex_fixed (width : nat) (n : Z) : string :=
  match width with
  | O => EmptyString
  | S w => String (hex_digit (nibble n w)) (hex_fixed w n)
  end.

(** [UUID(bytes=..., version=4).int]: variant bits set to RFC 4122, version
    nibble set to 4. *)
Definition uuid4_int (r : Z) : Z :=
  let i := r mod 2 ^ 128 in
  let i := Z.land i (Z.lnot (Z.shiftl 49152 48)) in
  let i := Z.lor i (Z.shiftl 32768 48) in
  let i := Z.land i (Z.lnot (Z.shiftl 61440 64)) in
  Z.lor i (Z.shiftl 4 76).

(** [UUID.__str__]. *)
Definition uuid_str (i : Z) : string :=
  let hex := hex_fixed 32 i in
  substring 0 8 hex ++ "-" ++ substring 8 4 hex ++ "-"
    ++ substring 12 4 hex ++ "-" ++ substring 16 4 hex ++ "-"
    ++ substring 20 12 hex.

Definition new_uuid (h : host) : string := uuid_str (uuid4_int (urandom h)).

(** *** The module *)

Definition _ensure_dir (h : host) : M unit :=
  c <- get_store ;;
  match c with
  | NoDir =>
      lift (makedirs h) ;;;
      emit MadeDir ;;;
      put_store (Dir None)
  | Dir _ => ret tt
  end.

(** [open(DEVICE_FILE, "r")] then [json.load(f)].  The two messages stand
    for the text of the error that [open] or the decoder gives, which is
    not reproduced. *)
Definition load_device_file (f : device_file) : M pyval :=
  emit (Consulted Read_device_file) ;;;
  if readable f then
    match parsed f with
    | Some data => ret data
    | None => raise (mkExc (OtherError "JSONDecodeError") "Expecting value")
    end
  else raise (mkExc (OtherError "PermissionError") "Permission denied").

(** [open(DEVICE_FILE, "w")] then [json.dump(record, f)]: opening truncates
    the file, so a failed dump leaves text that is not JSON. *)
Definition dump_device_file (h : host) (record : pyval) : M unit :=
  c <- get_store ;;
  match c with
  | NoDir => raise (mkExc (OtherError "FileNotFoundError") "No such file or directory")
  | Dir f =>
      let r := match f with Some old => readable old | None => true end in
      match write h with
      | WriteOk =>
          put_store (Dir (Some (mkFile r (Some record)))) ;;;
          emit (Wrote record)
      | OpenFails e => raise e
      | DumpFails e => put_store (Dir (Some (mkFile r None))) ;;; raise e
      end
  end.

(** The [if os.path.exists(DEVICE_FILE)] block: [Some v] when it returns
    [v], [None] when control falls through to the generation of an id. *)
Definition stored_id : M (option pyval) :=
  c <- get_store ;;
  match c with
  | Dir (Some f) =>
      try_except
        (data <- load_device_file f ;;
         present <- str_in "device_id" data ;;
         if present : bool
         then (v <- getitem data "device_id" ;; ret (Some v))
         else ret None)
        (fun e =>
           logger WARNING
             [Lit "Corrupt device file found, regenerating ID. Error: ";
              Lit (msg e)] ;;;
           ret None)
  | _ => ret None
  end.

Definition get_or_create_device_id (h : host) : M pyval :=
  _ensure_dir h ;;;
  found <- stored_id ;;
  match found with
  | Some v => ret v
  | None =>
      emit (Consulted Uuid4) ;;;
      let new_id := new_uuid h in
      try_except
        (dump_device_file h
           (PyDict [("device_id", PyStr new_id);
                    ("created_at", PyStr (now h))]))
        (fun e =>
           logger ERROR [Lit "Failed to persist device ID: "; Lit (msg e)]) ;;;
      ret (PyStr new_id)
  end.

(** Successive calls, each with the machine as it is at that moment. *)
Fixpoint calls (hs : list host) (st : state) : list (result pyval) * state :=
  match hs with
  | [] => ([], st)
  | h :: rest =>
      let (r, st') := get_or_create_device_id h st in
      let (rs, st'') := calls rest st' in
      (r :: rs, st'')
  end.

(** The textual form of a version-4 UUID, as a template: [x] a lower-case
    hexadecimal digit, [y] one of 8, 9, a, b, anything else itself. *)
Definition is_hex (a : ascii) : bool :=
  Text.is_digit a
  || (let n := nat_of_ascii a in ((97 <=? n) && (n <=? 102))%nat).

Definition is_variant (a : ascii) : bool :=
  (Ascii.eqb a "8" || Ascii.eqb a "9" || Ascii.eqb a "a" || Ascii.eqb a "b")%char.

Fixpoint fits (template s : string) : bool :=
  match template, s with
  | EmptyString, EmptyString => true
  | String t template', String c s' =>
      (if Ascii.eqb t "x" then is_hex c
       else if Ascii.eqb t "y" then is_variant c
       else Ascii.eqb c t)
      && fits template' s'
  | _, _ => false
  end.

Definition uuid4_shaped (s : string) : bool :=
  fits "xxxxxxxx-xxxx-4xxx-yxxx-xxxxxxxxxxxx" s.

(** The identifier an identity file yields when it is usable: readable,
    a JSON object, with a [device_id] key. *)
Definition usable_id (f : device_file) : option pyval :=
  if readable f then
    match parsed f with
    | Some (PyDict kvs) => lookup "device_id" kvs
    | _ => None
    end
  else None.

(** The identity file is absent, unreadable or malformed. *)
Definition unusable (c : config_store) : Prop :=
  match c with
  | NoDir | Dir None => True
  | Dir (Some f) => usable_id f = None
  end.

(** The record a run persists. *)
Definition identity_record (h : host) : pyval :=
  PyDict [("device_id", PyStr (new_uuid h)); ("created_at", PyStr (now h))].

(** The configuration directory once [_ensure_dir] has succeeded. *)
Definition ensured (c : config_store) : config_store :=
  match c with
  | NoDir => Dir None
  | Dir f => Dir f
  end.

(** The identity file once the write has been attempted on the store [c]
    (the directory being there). *)
Definition persisted (h : host) (c : config_store) : config_store :=
  let r := match c with Dir (Some old) => readable old | _ => true end in
  match write h with
  | WriteOk => Dir (Some (mkFile r (Some (identity_record h))))
  | OpenFails _ => ensured c
  | DumpFails _ => Dir (Some (mkFile r None))
  end.

End DeviceId.

(* ===================================================================== *)
(** ** scanner.py *)
(* ===================================================================== *)

Module Scanner.
Import Py.
Local Open Scope py_scope.

(** A device of [GPUtil.getGPUs()]: memory sizes in MiB. *)
Record gputil_device : Type := mkGPU {
  gpu_name : string;
  memoryTotal : Q;
  memoryFree : Q
}.

(** [torch.cuda.get_device_properties(i)]. *)
Record torch_props : Type := mkProps {
  props_name : string;
  total_memory : Z
}.

(** The [torch] module once imported.  [cuda_devices] has one entry per
    index below [torch.cuda.device_count()]: what
    [get_device_properties] answers for it. *)
Record torch_api : Type := mkTorch {
  cuda_is_available : answer bool;
  cuda_devices : answer (list (answer torch_props));
  has_mps : bool;                       (* hasattr(torch.backends, 'mps') *)
  mps_is_available : answer bool
}.

(** [psutil.virtual_memory()] and [psutil.disk_usage('/')]: sizes in
    bytes. *)
Record usage : Type := mkUsage {
  total : Z;
  unused : Z;                           (* .available, resp. .free *)
  percent : Q
}.

(** The machine as [scanner.py] sees it.  The [platform] functions return
    strings and do not raise; a [wmic_*] field is the decoded output of the
    command. *)
Record host : Type := mkHost {
  platform_system : string;
  platform_release : string;
  platform_version : string;
  platform_processor : string;
  platform_machine : string;
  wmic_cpu : answer string;
  cpu_count_physical : answer pyval;
  cpu_count_logical : answer pyval;
  cpu_freq : answer (option Q);         (* None, or the .max of the tuple *)
  cpu_percent : answer Q;
  virtual_memory : answer usage;
  disk_usage : answer usage;
  gputil : answer (list gputil_device); (* import GPUtil; GPUtil.getGPUs() *)
  torch : answer torch_api;             (* import torch *)
  wmic_video : answer string
}.

Definition newline : string := String (ascii_of_nat 10) EmptyString.

(** [[l.strip() for l in output.split('\n') if l.strip()]]. *)
Definition stripped_lines (output : string) : list string :=
  map Text.strip
    (filter (fun l => negb (String.eqb (Text.strip l) ""))
       (Text.split newline output)).

(** The integers a float holds exactly.  The quotient of such an [int] by
    [1024 ** 3] is exact; above, the quotient is rounded to 53 bits before
    [round] sees it, and beyond the range of a float the division raises
    [OverflowError]. *)
Definition float_exact (n : Z) : Prop := Z.abs n < 2 ^ 53.

(** [round(n / (1024 ** 3), 2)] for an [int] [n] that a float holds
    exactly. *)
Definition gib (n : Z) : Q := round2 (inject_Z n / inject_Z (1024 ^ 3)).

Definition get_cpu_info (h : host) : M pyval :=
  try_except
    (let brand := platform_processor h in
     brand <-
       (if String.eqb (platform_system h) "Windows" then
          try_except
            (output <- consult Wmic_cpu (wmic_cpu h) ;;
             match stripped_lines output with
             | _ :: name :: _ => ret name
             | _ => ret brand
             end)
            (fun e =>
               logger WARNING
                 [Lit "Could not get detailed CPU name via WMIC: ";
                  Lit (msg e)] ;;;
               ret brand)
        else ret brand) ;;
     let architecture := platform_machine h in
     physical <- consult Psutil_cpu (cpu_count_physical h) ;;
     logical <- consult Psutil_cpu (cpu_count_logical h) ;;
     freq <- consult Psutil_cpu (cpu_freq h) ;;
     frequency_max <-
       match freq with
       | Some _ =>
           again <- consult Psutil_cpu (cpu_freq h) ;;
           match again with
           | Some m => ret (PyFloat m)
           | None =>
               raise (mkExc (OtherError "AttributeError")
                        "'NoneType' object has no attribute 'max'")
           end
       | None => ret (PyInt 0)
       end ;;
     usage_percent <- consult Psutil_cpu (cpu_percent h) ;;
     ret (PyDict [("brand", PyStr brand);
                  ("architecture", PyStr architecture);
                  ("physical_cores", physical);
                  ("logical_cores", logical);
                  ("frequency_max", frequency_max);
                  ("usage_percent", PyFloat usage_percent)]))
    (fun e =>
       logger ERROR [Lit "Error fetching CPU info: "; Lit (msg e)] ;;;
       ret (PyDict [])).

Definition get_ram_info (h : host) : M pyval :=
  try_except
    (mem <- consult Psutil_memory (virtual_memory h) ;;
     ret (PyDict [("total_gb", PyFloat (gib (total mem)));
                  ("available_gb", PyFloat (gib (unused mem)));
                  ("percent_used", PyFloat (percent mem))]))
    (fun e =>
       logger ERROR [Lit "Error fetching RAM info: "; Lit (msg e)] ;;;
       ret (PyDict [])).

Definition get_disk_info (h : host) : M pyval :=
  try_except
    (disk <- consult Psutil_disk (disk_usage h) ;;
     ret (PyDict [("total_gb", PyFloat (gib (total disk)));
                  ("free_gb", PyFloat (gib (unused disk)));
                  ("percent_used", PyFloat (percent disk))]))
    (fun e =>
       logger ERROR [Lit "Error fetching Disk info: "; Lit (msg e)] ;;;
       ret (PyDict [])).

(** [x < y] on floats. *)
Definition float_lt (x y : Q) : bool := negb (Qle_bool y x).

(** Lines 128-129: the [vram_total_gb] of a WMIC entry, from the parsed
    [AdapterRAM], when a float holds its magnitude exactly. *)
Definition wmic_vram_gb (vram_bytes : Z) : pyval :=
  let vram_gb := gib (Z.abs vram_bytes) in
  if float_lt vram_gb (1 # 10) then PyInt 0 else PyFloat vram_gb.

(** Lines 128-129 read as a clamp of every negative value and of every
    value below 0.1 GiB, the others being [bytes / 1024**3] rounded. *)
Definition clamped_as_stated (vram_bytes : Z) : Prop :=
  let exact := (inject_Z vram_bytes / inject_Z (1024 ^ 3))%Q in
  if (vram_bytes <? 0) || float_lt exact (1 # 10)
  then wmic_vram_gb vram_bytes = PyInt 0
  else wmic_vram_gb vram_bytes = PyFloat (gib vram_bytes).

(** The body of the loop over the WMIC lines, for a line whose first
    column is in range ([column_in_range] below). *)
Definition wmic_entry (line : string) : pyval :=
  let parts := Text.split "  " line in
  let name := Text.strip (last parts "") in
  let vram_bytes :=
    match Text.py_int (Text.strip (hd "" parts)) with
    | Some n => n
    | None => 0
    end in
  PyDict [("name", PyStr name);
          ("vram_total_gb", wmic_vram_gb vram_bytes);
          ("source", PyStr "wmic")].

(** A column of the WMIC table that [int] rejects, or converts to an
    integer a float holds exactly; the text is within the 4300 digits that
    [int] accepts by default from Python 3.11 on. *)
Definition column_in_range (s : string) : Prop :=
  (String.length (Text.strip s) <= 4300)%nat
  /\ match Text.py_int (Text.strip s) with
     | Some n => float_exact n
     | None => True
     end.

(** The entry appended for a GPUtil device. *)
Definition gputil_entry (device : gputil_device) : pyval :=
  PyDict [("name", PyStr (gpu_name device));
          ("vram_total_gb", PyFloat (round2 (memoryTotal device / 1024)));
          ("vram_free_gb", PyFloat (round2 (memoryFree device / 1024)));
          ("source", PyStr "gputil")].

(** The entry appended for a CUDA device. *)
Definition torch_entry (props : torch_props) : pyval :=
  PyDict [("name", PyStr (props_name props));
          ("vram_total_gb", PyFloat (gib (total_memory props)));
          ("source", PyStr "torch")].

Definition mps_entry : pyval :=
  PyDict [("name", PyStr "Apple Unified Memory (MPS)");
          ("vram_total_gb", PyInt 0);
          ("source", PyStr "torch-mps")].

(** Strategy 1: GPUtil. *)
Definition gputil_strategy (h : host) : M unit :=
  try_pass
    (devices <- consult GPUtil_getGPUs (gputil h) ;;
     for_each devices (fun device => append_gpu (gputil_entry device))).

(** Strategy 2: PyTorch, CUDA devices or else Apple MPS. *)
Definition torch_strategy (h : host) : M unit :=
  try_pass
    (t <- consult Import_torch (torch h) ;;
     cuda <- consult Torch_cuda (cuda_is_available t) ;;
     if cuda : bool then
       devices <- consult Torch_cuda (cuda_devices t) ;;
       for_each devices (fun d =>
         props <- consult Torch_cuda d ;;
         append_gpu (torch_entry props))
     else if has_mps t then
       mps <- consult Torch_mps (mps_is_available t) ;;
       if mps : bool then append_gpu mps_entry else ret tt
     else ret tt).

(** Strategy 3: the WMIC command. *)
Definition wmic_strategy (h : host) : M unit :=
  try_pass
    (output <- consult Wmic_video (wmic_video h) ;;
     for_each (tl (stripped_lines output)) (fun line =>
       append_gpu (wmic_entry line))).

Definition is_empty (g : list pyval) : bool := negb (truthy (PyList g)).

Definition get_gpu_info (h : host) : M (list pyval) :=
  set_gpus [] ;;;
  gputil_strategy h ;;;
  g <- get_gpus ;;
  (if is_empty g then torch_strategy h else ret tt) ;;;
  g <- get_gpus ;;
  (if is_empty g && String.eqb (platform_system h) "Windows"
   then wmic_strategy h else ret tt) ;;;
  get_gpus.

(** The answers obtained before the first failure. *)
Fixpoint answered {A} (ds : list (answer A)) : list A :=
  match ds with
  | Got a :: rest => a :: answered rest
  | _ => []
  end.

Definition on_windows (h : host) : bool :=
  String.eqb (platform_system h) "Windows".

(** One of the probes [get_cpu_info] cannot do without failed. *)
Definition cpu_fails (h : host) : Prop :=
  failed (cpu_count_physical h) \/ failed (cpu_count_logical h)
  \/ failed (cpu_freq h) \/ failed (cpu_percent h).

(** Two machines on which psutil answers the same about the CPU and the
    memory; the platform strings, the WMIC commands, the disk probe and
    the GPU facilities are free to differ. *)
Definition same_cpu_and_ram (h h' : host) : Prop :=
  cpu_count_physical h = cpu_count_physical h'
  /\ cpu_count_logical h = cpu_count_logical h'
  /\ cpu_freq h = cpu_freq h'
  /\ cpu_percent h = cpu_percent h'
  /\ virtual_memory h = virtual_memory h'.

(** An entry as the summary of [run_scan] needs it: a dict with a string
    under [name], a value under [vram_total_gb] and the tag [tag] under
    [source]. *)
Definition entry_from (tag : string) (entry : pyval) : Prop :=
  exists kvs name vram,
    entry = PyDict kvs
    /\ lookup "name" kvs = Some (PyStr name)
    /\ lookup "vram_total_gb" kvs = Some vram
    /\ lookup "source" kvs = Some (PyStr tag).

(** The events a strategy of [get_gpu_info] can log. *)
Definition torch_call (e : event) : Prop :=
  e = Consulted Import_torch \/ e = Consulted Torch_cuda
  \/ e = Consulted Torch_mps.

Definition scan_system (h : host) : M pyval :=
  print [Lit "running system scan... (we only access hardware capability metrics)"] ;;;
  let os := PyDict [("system", PyStr (platform_system h));
                    ("release", PyStr (platform_release h));
                    ("version", PyStr (platform_version h))] in
  cpu <- get_cpu_info h ;;
  ram <- get_ram_info h ;;
  storage <- get_disk_info h ;;
  gpu <- get_gpu_info h ;;
  ret (PyDict [("os", os);
               ("cpu", cpu);
               ("ram", ram);
               ("storage", storage);
               ("gpu", PyList gpu)]).

End Scanner.

(* ===================================================================== *)
(** ** cli.py *)
(* ===================================================================== *)

Module Cli.
Import Py.
Local Open Scope py_scope.

(** The whole machine a run touches. *)
Record machine : Type := mkMachine {
  ident : DeviceId.host;
  hw : Scanner.host;
  net : Sender.endpoint
}.

(** [for g in v]: the items a [for] loop visits. *)
Definition elements (v : pyval) : M (list pyval) :=
  match v with
  | PyList xs => ret xs
  | PyDict kvs => ret (map PyStr (keys kvs))
  | PyStr s =>
      ret (map (fun a => PyStr (String a EmptyString)) (list_ascii_of_string s))
  | _ => raise (type_error "object is not iterable")
  end.

(** [g.get(k, default)]. *)
Definition dict_get (g : pyval) (k : string) (default : pyval) : M pyval :=
  match g with
  | PyDict kvs =>
      ret (match lookup k kvs with Some v => v | None => default end)
  | _ => raise (mkExc (OtherError "AttributeError")
                  "object has no attribute 'get'")
  end.

Definition rule : string :=
  "--------------------------------------------------".

(** Lines 48-67 of [run_scan]: identity, scan and the summary; gives the
    [device_uuid] and [system_metrics] the rest of the function uses. *)
Definition identify_and_scan (m : machine) : M (pyval * pyval) :=
  device_uuid <- DeviceId.get_or_create_device_id (ident m) ;;
  print [Lit "✅ Device Identified: "; Fmt device_uuid] ;;;
  print [Lit "Running hardware diagnostics (this may take a few seconds)..."] ;;;
  system_metrics <- Scanner.scan_system (hw m) ;;
  print [Lit Scanner.newline; Lit "🔍 DETECTED SPECIFICATIONS:"] ;;;
  cpu <- getitem system_metrics "cpu" ;;
  brand <- getitem cpu "brand" ;;
  print [Lit "   💻 CPU: "; Fmt brand] ;;;
  cpu <- getitem system_metrics "cpu" ;;
  logical <- getitem cpu "logical_cores" ;;
  print [Lit "   ⚙️  Threads: "; Fmt logical; Lit " Logical Cores"] ;;;
  ram <- getitem system_metrics "ram" ;;
  total_gb <- getitem ram "total_gb" ;;
  print [Lit "   🧠 RAM: "; Fmt total_gb; Lit " GB"] ;;;
  gpu <- getitem system_metrics "gpu" ;;
  (if truthy gpu then
     gpu <- getitem system_metrics "gpu" ;;
     gs <- elements gpu ;;
     for_each gs (fun g =>
       vram <- dict_get g "vram_total_gb" (PyStr "Unified") ;;
       name <- getitem g "name" ;;
       print [Lit "   🎮 GPU: "; Fmt name; Lit " (VRAM: "; Fmt vram;
              Lit " GB)"])
   else print [Lit "   🎮 GPU: No dedicated GPU detected."]) ;;;
  print [Lit rule; Lit Scanner.newline] ;;;
  ret (device_uuid, system_metrics).

(** Lines 63-64: the line printed for one GPU entry. *)
Definition gpu_line (g : pyval) : M unit :=
  vram <- dict_get g "vram_total_gb" (PyStr "Unified") ;;
  name <- getitem g "name" ;;
  print [Lit "   🎮 GPU: "; Fmt name; Lit " (VRAM: "; Fmt vram; Lit " GB)"].

(** Lines 56-67 of [run_scan]: the summary, which reads the sections it
    prints out of [system_metrics]. *)
Definition summary (device_uuid system_metrics : pyval) : M (pyval * pyval) :=
  print [Lit Scanner.newline; Lit "🔍 DETECTED SPECIFICATIONS:"] ;;;
  cpu <- getitem system_metrics "cpu" ;;
  brand <- getitem cpu "brand" ;;
  print [Lit "   💻 CPU: "; Fmt brand] ;;;
  cpu <- getitem system_metrics "cpu" ;;
  logical <- getitem cpu "logical_cores" ;;
  print [Lit "   ⚙️  Threads: "; Fmt logical; Lit " Logical Cores"] ;;;
  ram <- getitem system_metrics "ram" ;;
  total_gb <- getitem ram "total_gb" ;;
  print [Lit "   🧠 RAM: "; Fmt total_gb; Lit " GB"] ;;;
  gpu <- getitem system_metrics "gpu" ;;
  (if truthy gpu then
     gpu <- getitem system_metrics "gpu" ;;
     gs <- elements gpu ;;
     for_each gs gpu_line
   else print [Lit "   🎮 GPU: No dedicated GPU detected."]) ;;;
  print [Lit rule; Lit Scanner.newline] ;;;
  ret (device_uuid, system_metrics).

(** Lines 70-74: the report. *)
Definition payload (device_uuid system_metrics : pyval) : pyval :=
  PyDict [("device_id", device_uuid);
          ("metrics", system_metrics);
          ("timestamp", PyStr "Now")].

(** Lines 92-95: the link printed on success. *)
Definition final_link (backend_url : string) (device_uuid : pyval)
    : list fragment :=
  let dashboard_url :=
    Text.replace "/api" ""
      (Text.replace "/api/device/register" "" backend_url) in
  let base_url := hd "" (Text.split "/api" backend_url) in
  [Lit base_url; Lit "/?deviceId="; Fmt device_uuid].

(** Lines 69-102 of [run_scan]: payload, notice, submission, outcome. *)
Definition report (m : machine) (backend_url : string)
    (device_uuid system_metrics : pyval) : M unit :=
  let payload := payload device_uuid system_metrics in
  print [Lit rule] ;;;
  print [Lit "NOTICE: Only hardware capability metrics (CPU/RAM/GPU/Disk Space)"] ;;;
  print [Lit "are being collected to determine LLM compatibility."] ;;;
  print [Lit "NO personal files, browsing history, or private data is accessed."] ;;;
  print [Lit rule] ;;;
  print [Lit "Sending report to backend at "; Lit backend_url; Lit "..."] ;;;
  sent <- Sender.send_data (net m) payload backend_url ;;
  let (success, result) := sent : bool * pyval in
  if success then
    print [Lit Scanner.newline; Lit (Text.repeat_char "=" 50)] ;;;
    print [Lit "🎉 SUCCESS! Hardware profile updated."] ;;;
    print [Lit "🔗 VIEW YOUR REPORT HERE:"] ;;;
    print (Lit "   " :: final_link backend_url device_uuid) ;;;
    print [Lit (Text.repeat_char "=" 50); Lit Scanner.newline]
  else
    print [Lit "❌ Failed to reach server. Error: "; Fmt result] ;;;
    sys_exit 1.

Definition run_scan (m : machine) (backend_url : string) : M unit :=
  found <- identify_and_scan m ;;
  let (device_uuid, system_metrics) := found : pyval * pyval in
  report m backend_url device_uuid system_metrics.

(** The command line once [argparse] has read it. *)
Inductive command : Type :=
| Scan (backend : option string)      (* scan [--backend URL] *)
| Bench
| NoCommand.

(** [main], after [parser.parse_args()]; [help] is the text
    [parser.print_help()] writes. *)
Definition main (m : machine) (help : string) (c : command) : M unit :=
  match c with
  | Scan backend =>
      run_scan m (match backend with
                  | Some url => url
                  | None => "http://localhost:3001"
                  end)
  | Bench => print [Lit "Benchmarking mode coming soon..."]
  | NoCommand => print [Lit help]
  end.

(** An event that is not a request, or is a request whose body has the
    [timestamp] "Now". *)
Definition stamped_now (e : event) : Prop :=
  match e with
  | Posted _ body _ _ => exists kvs,
      body = PyDict kvs /\ lookup "timestamp" kvs = Some (PyStr "Now")
  | _ => True
  end.

(** The status the interpreter leaves with: 0 when the program runs to
    its end, the argument of [sys.exit], 1 on an uncaught exception. *)
Definition exit_status {A} (r : result A) : Z :=
  match r with
  | Ok _ => 0
  | Exit code => code
  | Raise _ => 1
  end.

End Cli.

(* ===================================================================== *)
(** ** A sample machine *)
(* ===================================================================== *)

Module Demo.
Import Py.

Definition no_module (name : string) : exc :=
  mkExc (OtherError "ModuleNotFoundError") ("No module named " ++ name).

Definition video_output : string :=
  "AdapterRAM   Name" ++ Scanner.newline
    ++ "1073741824   Intel(R) UHD Graphics" ++ Scanner.newline.

(** A laptop, up to its system name and what the CPU usage probe and the
    three GPU facilities answer. *)
Definition laptop (system : string) (usage : answer Q)
    (gputil : answer (list Scanner.gputil_device))
    (torch : answer Scanner.torch_api) (video : answer string)
    : Scanner.host :=
  Scanner.mkHost system "10" "10.0.19045"
    "Intel64 Family 6 Model 140 Stepping 1, GenuineIntel" "AMD64"
    (Got ("Name" ++ Scanner.newline
            ++ "11th Gen Intel(R) Core(TM) i3-1115G4 @ 3.00GHz"
            ++ Scanner.newline))
    (Got (PyInt 2)) (Got (PyInt 4)) (Got (Some 3000%Q)) usage
    (Got (Scanner.mkUsage 8589934592 4294967296 50%Q))
    (Got (Scanner.mkUsage 255550554112 100000000000 (61 # 1)%Q))
    gputil torch video.

(** On Windows, with an integrated GPU, without GPUtil and torch. *)
Definition hw : Scanner.host :=
  laptop "Windows" (Got (25 # 2)%Q) (Failed (no_module "GPUtil"))
    (Failed (no_module "torch")) (Got video_output).

(** A torch whose second CUDA device cannot be queried. *)
Definition flaky_torch : Scanner.torch_api :=
  Scanner.mkTorch (Got true)
    (Got [Got (Scanner.mkProps "NVIDIA GeForce RTX 3060" 12884901888);
          Failed (mkExc (OtherError "RuntimeError") "CUDA error");
          Got (Scanner.mkProps "NVIDIA GeForce GTX 1050" 2147483648)])
    false (Got false).

(** A first run: the configuration directory can be created and written. *)
Definition ident : DeviceId.host :=
  DeviceId.mkHost (Got tt) 81985529216486895 "2025-01-01 12:00:00"
    DeviceId.WriteOk.

(** An endpoint that answers 201 with [{"status": "ok"}]. *)
Definition created : Sender.response :=
  Sender.mkResponse 201 "Created" (Got (PyDict [("status", PyStr "ok")])).

Definition accepting : Sender.endpoint := fun _ _ => Got created.

(** An endpoint nobody listens on. *)
Definition refused : exc := mkExc ConnectionError "Connection refused".

Definition unreachable : Sender.endpoint := fun _ _ => Failed refused.

Definition machine (net : Sender.endpoint) : Cli.machine :=
  Cli.mkMachine ident hw net.

End Demo.

(* ===================================================================== *)
(** * Properties *)
(* ===================================================================== *)

(** ** Facts about the [str] methods *)

Section TextFacts.
Import Text.

Lemma endswith_unfold (s suf : string) :
  endswith s suf =
  if String.eqb s suf then true
  else match s with
       | EmptyString => false
       | String _ s' => endswith s' suf
       end.
Proof. destruct s; reflexivity. Qed.

(** [endswith] decides "is a suffix of". *)
Lemma endswith_spec (s suf : string) :
  endswith s suf = true <-> exists p, s = p ++ suf.
Proof.
  split.
  - induction s as [|a s IH]; rewrite endswith_unfold.
    + destruct (String.eqb_spec "" suf) as [<-|Hne]; intro H;
        [now exists "" | discriminate].
    + destruct (String.eqb_spec (String a s) suf) as [<-|Hne]; intro H.
      * now exists "".
      * destruct (IH H) as [p ->]. now exists (String a p).
  - intros [p ->]. induction p as [|a p IH].
    + change ("" ++ suf) with suf.
      rewrite endswith_unfold. now rewrite String.eqb_refl.
    + change (String a p ++ suf) with (String a (p ++ suf)).
      rewrite endswith_unfold, IH.
      now destruct (String.eqb (String a (p ++ suf)) suf).
Qed.

Lemma endswith_char_cons (a b c : ascii) (r : string) :
  endswith (String a (String b r)) (String c "") = endswith (String b r) (String c "").
Proof.
  rewrite endswith_unfold.
  destruct (String.eqb_spec (String a (String b r)) (String c "")) as [E|_];
    [discriminate E | reflexivity].
Qed.

(** [rstrip] removes a run of the character at the end, and all of it. *)
Lemma rstrip_spec (c : ascii) (s : string) :
  (exists n, s = rstrip c s ++ repeat_char c n)
  /\ endswith (rstrip c s) (String c "") = false.
Proof.
  unfold rstrip. induction s as [|a s [[n Hn] Hend]]; simpl.
  - split; [now exists 0%nat | reflexivity].
  - destruct (rstrip_by (Ascii.eqb c) s) as [|b r] eqn:E.
    + destruct (Ascii.eqb_spec c a) as [->|Hne].
      * split; [exists (S n); simpl; now rewrite Hn at 1 | reflexivity].
      * split; [exists n; simpl; now rewrite Hn at 1 |].
        rewrite endswith_unfold. simpl.
        destruct (Ascii.eqb_spec a c) as [->|_]; [now elim Hne | reflexivity].
    + split; [exists n; simpl; now rewrite Hn at 1 |].
      now rewrite endswith_char_cons.
Qed.

(** *** Cutting a string at a separator *)

Lemma append_assoc (a b c : string) : (a ++ b) ++ c = a ++ (b ++ c).
Proof. induction a as [|x a IH]; [reflexivity|]. cbn. now rewrite IH. Qed.

Lemma append_nil_r (a : string) : a ++ "" = a.
Proof. induction a as [|x a IH]; [reflexivity|]. cbn. now rewrite IH. Qed.

Lemma prefix_app (a z : string) : String.prefix a (a ++ z) = true.
Proof.
  induction a as [|c a IH]; cbn; [now destruct z|].
  destruct (ascii_dec c c) as [_|N]; [exact IH | now elim N].
Qed.

(** A string that a separator is not a prefix of, and that is long enough
    to tell, stays so when extended. *)
Lemma prefix_false_app (sep a z : string) :
  String.prefix sep a = false ->
  (String.length sep <= String.length a)%nat ->
  String.prefix sep (a ++ z) = false.
Proof.
  revert a. induction sep as [|c sep IH]; intros [|d a] H L; cbn in *;
    try discriminate; try lia.
  destruct (ascii_dec c d); [apply IH; [exact H | lia] | reflexivity].
Qed.

Lemma contains_unfold (sub s : string) :
  contains sub s =
  if String.prefix sub s then true
  else match s with
       | EmptyString => false
       | String _ s' => contains sub s'
       end.
Proof. destruct s; reflexivity. Qed.

Lemma contains_cons (sub : string) (c : ascii) (s : string) :
  contains sub (String c s) = false ->
  String.prefix sub (String c s) = false /\ contains sub s = false.
Proof.
  rewrite contains_unfold. destruct (String.prefix sub (String c s));
    [discriminate | auto].
Qed.

Lemma string_of_rev_cons (c : ascii) (cur : list ascii) (s : string) :
  string_of_rev (c :: cur) ++ s = string_of_rev cur ++ String c s.
Proof.
  unfold string_of_rev. cbn [rev].
  induction (rev cur) as [|x l IH]; cbn; [reflexivity | now rewrite IH].
Qed.

(** Passing over the rest of a matched separator. *)
Lemma split_go_skip (sep x : string) (cur : list ascii) (rest : string) :
  split_go sep (String.length x) cur (x ++ rest) = split_go sep 0 cur rest.
Proof.
  induction x as [|c x IH]; cbn [String.length append].
  - reflexivity.
  - cbn [split_go]. exact IH.
Qed.

(** Without an occurrence of the separator there is one piece. *)
Lemma split_go_none (sep : string) (cur : list ascii) (s : string) :
  contains sep s = false ->
  split_go sep 0 cur s = [string_of_rev cur ++ s].
Proof.
  revert cur. induction s as [|c s IH]; intros cur H.
  - cbn. now rewrite append_nil_r.
  - destruct (contains_cons _ _ _ H) as [P C].
    cbn [split_go]. rewrite P, (IH _ C). now rewrite string_of_rev_cons.
Qed.

Lemma split_none (sep s : string) :
  contains sep s = false -> split sep s = [s].
Proof. intro H. unfold split. now rewrite split_go_none. Qed.

(** The first cut: when the separator [k ++ a] does not occur in [p]
    followed by [k], the first piece of [p ++ sep ++ rest] is [p]. *)
Lemma split_go_first (k : string) (a : ascii) (p rest : string)
    (cur : list ascii) :
  let sep := k ++ String a "" in
  contains sep (p ++ k) = false ->
  split_go sep 0 cur (p ++ sep ++ rest)
  = (string_of_rev cur ++ p) :: split_go sep 0 [] rest.
Proof.
  intros sep. revert cur. induction p as [|c p IH]; intros cur H.
  - cbn [append]. 
    assert (E : exists d sep', sep = String d sep').
    { subst sep. destruct k; cbn; eauto. }
    destruct E as (d & sep' & E).
    pose proof (prefix_app sep rest) as P. rewrite E in *.
    cbn [append split_go]. cbn [append] in P. rewrite P.
    cbn [String.length]. rewrite Nat.sub_succ, Nat.sub_0_r.
    rewrite split_go_skip. now rewrite append_nil_r.
  - cbn [append] in *. destruct (contains_cons _ _ _ H) as [P C].
    assert (P' : String.prefix sep (String c (p ++ sep ++ rest)) = false).
    { subst sep. rewrite append_assoc. cbn [append].
      rewrite <- append_assoc.
      change (String c ((p ++ k) ++ String a rest))
        with (String c (p ++ k) ++ String a rest).
      apply prefix_false_app; [exact P|].
      cbn [String.length]. clear. 
      induction p as [|x p IHp]; cbn.
      - induction k; cbn; lia.
      - lia. }
    cbn [split_go]. rewrite P', (IH _ C). now rewrite string_of_rev_cons.
Qed.

Lemma prefix_true_app (sep a z : string) :
  String.prefix sep a = true -> String.prefix sep (a ++ z) = true.
Proof.
  revert a. induction sep as [|c sep IH]; intros [|d a] H; cbn in *;
    try reflexivity; try discriminate.
  - now destruct z.
  - destruct (ascii_dec c d); [now apply IH | discriminate].
Qed.

(** No occurrence in an extension, none in the string. *)
Lemma contains_app_false (sep p k : string) :
  contains sep (p ++ k) = false -> contains sep p = false.
Proof.
  induction p as [|c p IH]; intro H.
  - cbn [append] in H. rewrite contains_unfold in H |- *.
    destruct (String.prefix sep "") eqn:P; [|reflexivity].
    destruct sep; [|discriminate P]. now destruct k.
  - cbn [append] in H. destruct (contains_cons _ _ _ H) as [P C].
    rewrite contains_unfold.
    destruct (String.prefix sep (String c p)) eqn:P'.
    + apply (prefix_true_app _ _ k) in P'. cbn [append] in P'. congruence.
    + now apply IH.
Qed.

End TextFacts.

(** Unfolds the monad operations, so that a computation reduces on a
    given state. *)
Ltac run :=
  cbv [Py.try_except Py.bind Py.emit Py.lift Py.ret Py.raise Py.logger
       Py.print Py.sys_exit Py.consult Py.get_store Py.put_store Py.get_gpus
       Py.set_gpus Py.append_gpu Py.try_pass];
  cbn [Py.store Py.gpus Py.log fst snd].

(** ** sender.py *)

Section SenderFacts.
Import Py Sender.

(** The request of [send_data] goes to [target_url api_url], whatever the
    endpoint then does. *)
Lemma send_data_posts (net : endpoint) (body : pyval) (api_url : string)
    (st : state) :
  exists rest,
    log (snd (send_data net body api_url st))
    = (log st ++ Posted (target_url api_url) body headers 10 :: rest)%list.
Proof.
  unfold send_data, post, raise_for_status, on_failure. run.
  destruct (net (target_url api_url) body) as [r|e].
  - destruct ((400 <=? status_code r) && (status_code r <? 500));
      [|destruct ((500 <=? status_code r) && (status_code r <? 600))];
      try (cbn; eexists; rewrite <- !app_assoc; reflexivity).
    destruct (json r); cbn.
    + eexists; rewrite <- !app_assoc; reflexivity.
    + destruct (is_Timeout e); [|destruct (is_ConnectionError e);
        [|destruct (is_HTTPError e)]];
        cbn; eexists; rewrite <- !app_assoc; reflexivity.
  - destruct (is_Timeout e); [|destruct (is_ConnectionError e);
      [|destruct (is_HTTPError e)]];
      cbn; eexists; rewrite <- !app_assoc; reflexivity.
Qed.

(** C3. URL normalisation: the request of [send_data] goes to
    [target_url api_url]; a URL that ends with [/api/device/register] is
    used as it is, any other URL loses its trailing slashes and gets that
    path appended; [http://host:3001] becomes
    [http://host:3001/api/device/register] and the latter is left alone. *)
Theorem send_data_normalizes_url (net : endpoint) (body : pyval)
    (api_url : string) (st : state) :
  (exists rest,
      log (snd (send_data net body api_url st))
      = (log st ++ Posted (target_url api_url) body headers 10 :: rest)%list)
  /\ ((exists p, api_url = p ++ register_path) /\ target_url api_url = api_url
      \/ ~ (exists p, api_url = p ++ register_path)
         /\ exists base n,
              api_url = base ++ Text.repeat_char "/" n
              /\ Text.endswith base "/" = false
              /\ target_url api_url = base ++ register_path)
  /\ target_url "http://host:3001" = "http://host:3001/api/device/register"
  /\ target_url "http://host:3001/api/device/register"
     = "http://host:3001/api/device/register".
Proof.
  split; [apply send_data_posts|].
  split; [|split; reflexivity].
  unfold target_url.
  destruct (Text.endswith api_url register_path) eqn:E; cbn [negb].
  - left. split; [now apply endswith_spec | reflexivity].
  - right. split.
    + intro H. apply endswith_spec in H. congruence.
    + destruct (rstrip_spec "/" api_url) as [[n Hn] Hend].
      exists (Text.rstrip "/" api_url), n. auto.
Qed.

Import Text.

(** *** More on [send_data] *)

(** The outcome of [send_data], case by case. *)
Lemma send_data_cases (net : endpoint) (body : pyval) (api_url : string)
    (st : state) :
  exists ok v records,
    send_data net body api_url st
    = (Ok (ok, v),
       mkState (store st) (gpus st)
         (log st ++ Posted (target_url api_url) body headers 10 :: records))
    /\ Forall no_request records
    /\ (ok = true <->
        exists r, net (target_url api_url) body = Got r
                  /\ (status_code r < 400 \/ 600 <= status_code r)
                  /\ json r = Got v).
Proof.
  unfold send_data, post, raise_for_status, on_failure. run.
  destruct (net (target_url api_url) body) as [r|e].
  - destruct ((400 <=? status_code r) && (status_code r <? 500)) eqn:C4;
      [|destruct ((500 <=? status_code r) && (status_code r <? 600)) eqn:C5;
          [|destruct (json r) as [b|e] eqn:J]].
    + cbn. do 3 eexists. rewrite <- !app_assoc. cbn [app].
      split; [reflexivity|]. split; [repeat constructor|].
      split; [discriminate|]. intros (r' & E & S & _). inversion E; subst r'.
      apply andb_true_iff in C4. destruct C4 as [A B].
      apply Z.leb_le in A. apply Z.ltb_lt in B. lia.
    + cbn. do 3 eexists. rewrite <- !app_assoc. cbn [app].
      split; [reflexivity|]. split; [repeat constructor|].
      split; [discriminate|]. intros (r' & E & S & _). inversion E; subst r'.
      apply andb_true_iff in C5. destruct C5 as [A B].
      apply Z.leb_le in A. apply Z.ltb_lt in B. lia.
    + cbn. do 3 eexists. rewrite <- !app_assoc. cbn [app].
      split; [reflexivity|]. split; [repeat constructor|].
      split; [intros _|reflexivity]. exists r. split; [reflexivity|].
      split; [|exact J].
      apply andb_false_iff in C4. apply andb_false_iff in C5.
      rewrite !Z.leb_gt, !Z.ltb_ge in *. lia.
    + destruct (is_Timeout e);
        [|destruct (is_ConnectionError e); [|destruct (is_HTTPError e)]];
        cbn; do 3 eexists; rewrite <- !app_assoc; cbn [app];
        (split; [reflexivity|]); (split; [repeat constructor|]);
        (split; [discriminate|]); intros (r' & E & _ & J');
        inversion E; subst r'; congruence.
  - destruct (is_Timeout e);
      [|destruct (is_ConnectionError e); [|destruct (is_HTTPError e)]];
      cbn; do 3 eexists; rewrite <- ?app_assoc; cbn [app];
      (split; [reflexivity|]); (split; [repeat constructor|]);
      (split; [discriminate|]); intros (r' & E & _); discriminate.
Qed.

(** X1. [send_data] never raises: it returns a pair, having made exactly
    one request followed by log records only; the flag is [True] exactly
    when the endpoint answered with a status outside 400..599 and a body
    that parses as JSON, which is then the second component. *)
Theorem send_data_total (net : endpoint) (body : pyval) (api_url : string)
    (st : state) :
  exists ok v records,
    send_data net body api_url st
    = (Ok (ok, v),
       mkState (store st) (gpus st)
         (log st ++ Posted (target_url api_url) body headers 10 :: records))
    /\ Forall no_request records
    /\ (ok = true <->
        exists r, net (target_url api_url) body = Got r
                  /\ (status_code r < 400 \/ 600 <= status_code r)
                  /\ json r = Got v).
Proof. apply send_data_cases. Qed.

(** X2. An answer with a 4xx or 5xx status is a failure whatever its
    body: [response.json()] is not looked at, no success is logged, and
    the description is "HTTP Error: " followed by the status code and the
    rest of the library's message. *)
Theorem http_error_status (net : endpoint) (body : pyval) (api_url : string)
    (st : state) (r : response) :
  net (target_url api_url) body = Got r ->
  400 <= status_code r < 600 ->
  exists rest,
    send_data net body api_url st
    = (Ok (false,
           PyStr ("HTTP Error: " ++ Text.str_of_Z (status_code r) ++ rest)),
       mkState (store st) (gpus st)
         (log st ++ [Posted (target_url api_url) body headers 10;
                     Logged ERROR
                       [Lit "HTTP Error: ";
                        Lit (Text.str_of_Z (status_code r) ++ rest)]])).
Proof.
  intros Hnet Hs.
  unfold send_data, post, raise_for_status, on_failure. run. rewrite Hnet.
  destruct ((400 <=? status_code r) && (status_code r <? 500)) eqn:C4.
  - cbn. eexists. rewrite <- !app_assoc. cbn [app]. reflexivity.
  - assert (C5 : (500 <=? status_code r) && (status_code r <? 600) = true).
    { apply andb_false_iff in C4. rewrite Z.leb_gt, Z.ltb_ge in C4.
      apply andb_true_iff. rewrite Z.leb_le, Z.ltb_lt. lia. }
    rewrite C5. cbn. eexists. rewrite <- !app_assoc. cbn [app]. reflexivity.
Qed.

Lemma http_error_status_witness :
  fst (send_data
         (fun _ _ => Got (mkResponse 404 "Not Found" (Got PyNone)))
         PyNone "http://host:3001" blank)
  = Ok (false,
        PyStr "HTTP Error: 404 Client Error: Not Found for url: http://host:3001/api/device/register").
Proof.
  destruct (http_error_status
              (fun _ _ => Got (mkResponse 404 "Not Found" (Got PyNone)))
              PyNone "http://host:3001" blank _ eq_refl
              ltac:(cbn; lia)) as [rest E].
  vm_compute in E. vm_compute. congruence.
Defined.

(** X3. An answer with a status outside 400..599 whose body does not
    parse as JSON is reported as a failure, with the text of the decoding
    error, although the success of the request has already been logged. *)
Theorem unparsable_body_is_a_failure (net : endpoint) (body : pyval)
    (api_url : string) (st : state) (r : response) (e : exc) :
  net (target_url api_url) body = Got r ->
  status_code r < 400 \/ 600 <= status_code r ->
  json r = Failed e ->
  cls e = OtherError "JSONDecodeError" ->
  send_data net body api_url st
  = (Ok (false, PyStr (msg e)),
     mkState (store st) (gpus st)
       (log st ++ [Posted (target_url api_url) body headers 10;
                   Logged INFO
                     [Lit "Successfully sent hardware report. Status code: ";
                      Fmt (PyInt (status_code r))];
                   Logged CRITICAL
                     [Lit "Unexpected error while sending data: ";
                      Lit (msg e)]])).
Proof.
  intros Hnet Hs Hj Hc.
  unfold send_data, post, raise_for_status, on_failure. run. rewrite Hnet.
  assert (C4 : (400 <=? status_code r) && (status_code r <? 500) = false).
  { apply andb_false_iff. rewrite Z.leb_gt, Z.ltb_ge. lia. }
  assert (C5 : (500 <=? status_code r) && (status_code r <? 600) = false).
  { apply andb_false_iff. rewrite Z.leb_gt, Z.ltb_ge. lia. }
  rewrite C4, C5. cbn. rewrite Hj.
  unfold is_Timeout, is_ConnectionError, is_HTTPError. rewrite Hc. cbn.
  now rewrite <- !app_assoc.
Qed.

Lemma unparsable_body_is_a_failure_witness :
  fst (send_data
         (fun _ _ =>
            Got (mkResponse 200 "OK"
                   (Failed (mkExc (OtherError "JSONDecodeError")
                              "Expecting value: line 1 column 1 (char 0)"))))
         PyNone "http://host:3001" blank)
  = Ok (false, PyStr "Expecting value: line 1 column 1 (char 0)").
Proof.
  exact (f_equal fst
           (unparsable_body_is_a_failure
              (fun _ _ =>
                 Got (mkResponse 200 "OK"
                        (Failed (mkExc (OtherError "JSONDecodeError")
                                   "Expecting value: line 1 column 1 (char 0)"))))
              PyNone "http://host:3001" blank _ _ eq_refl
              (or_introl eq_refl) eq_refl eq_refl)).
Defined.

(** *** More on the target URL *)

Lemma repeat_char_snoc (c : ascii) (n : nat) :
  repeat_char c (S n) = repeat_char c n ++ String c "".
Proof. induction n as [|n IH]; [reflexivity|]. cbn in *. now rewrite <- IH. Qed.

Lemma rstrip_by_run (p : ascii -> bool) (c : ascii) (n : nat) :
  p c = true -> rstrip_by p (repeat_char c n) = "".
Proof.
  intro H. induction n as [|n IH]; [reflexivity|].
  cbn. now rewrite IH, H.
Qed.

(** A run of the character at the end does not change [rstrip]. *)
Lemma rstrip_app_run (c : ascii) (s : string) (n : nat) :
  rstrip c (s ++ repeat_char c n) = rstrip c s.
Proof.
  unfold rstrip. induction s as [|a s IH]; cbn.
  - apply rstrip_by_run, Ascii.eqb_refl.
  - now rewrite IH.
Qed.

(** [rstrip] leaves a string that ends with another character alone. *)
Lemma rstrip_other (c a : ascii) (s : string) :
  a <> c -> rstrip c (s ++ String a "") = s ++ String a "".
Proof.
  intro H. unfold rstrip. induction s as [|b s IH]; cbn.
  - destruct (Ascii.eqb_spec c a) as [E|_]; [now elim H | reflexivity].
  - rewrite IH. now destruct s.
Qed.

Lemma snoc_inj (s1 s2 : string) (a b : ascii) :
  s1 ++ String a "" = s2 ++ String b "" -> a = b.
Proof.
  revert s2. induction s1 as [|c s1 IH]; intros [|d s2] H; cbn in H.
  - now inversion H.
  - inversion H as [[E1 E2]]. now destruct s2.
  - inversion H as [[E1 E2]]. now destruct s1.
  - inversion H. eauto.
Qed.

(** X4. Normalising is idempotent, and the target always ends with the
    registration path. *)
Theorem target_url_idempotent (api_url : string) :
  Text.endswith (target_url api_url) register_path = true
  /\ target_url (target_url api_url) = target_url api_url.
Proof.
  assert (E : Text.endswith (target_url api_url) register_path = true).
  { unfold target_url.
    destruct (Text.endswith api_url register_path) eqn:E; cbn [negb];
      [exact E|]. apply endswith_spec. eexists. reflexivity. }
  split; [exact E|]. unfold target_url at 1. now rewrite E.
Qed.

(** X5. A URL that already carries the registration path, followed by one
    or more slashes, gets the path a second time: the test for the suffix
    comes before the slashes are trimmed. *)
Theorem trailing_slash_duplicates_path (p : string) (n : nat) :
  target_url (p ++ register_path ++ repeat_char "/" (S n))
  = p ++ register_path ++ register_path.
Proof.
  unfold target_url.
  destruct (Text.endswith _ register_path) eqn:E; cbn [negb].
  - apply endswith_spec in E. destruct E as [q E]. exfalso.
    rewrite repeat_char_snoc in E.
    change register_path with ("/api/device/registe" ++ String "r" "") in E at 2.
    rewrite <- !append_assoc in E.
    apply snoc_inj in E. discriminate E.
  - rewrite <- append_assoc, rstrip_app_run.
    change register_path with ("/api/device/registe" ++ String "r" "") at 1.
    rewrite <- append_assoc, rstrip_other by discriminate.
    now rewrite !append_assoc.
Qed.

(** X22. When the request raises, the description follows the first
    [except] clause that fits, in the order written: "Timeout" for every
    timeout (a connect timeout included, although it is a connection
    error too), then "Connection Error", then "HTTP Error: " with the
    message, and the bare message for anything else; nothing is raised. *)
Theorem failure_taxonomy (net : endpoint) (body : pyval) (api_url : string)
    (st : state) (e : exc) :
  net (target_url api_url) body = Failed e ->
  fst (send_data net body api_url st)
  = Ok (false,
        PyStr (if is_Timeout e then "Timeout"
               else if is_ConnectionError e then "Connection Error"
               else if is_HTTPError e then "HTTP Error: " ++ msg e
               else msg e))
  /\ (cls e = ConnectTimeout ->
      is_ConnectionError e = true
      /\ fst (send_data net body api_url st) = Ok (false, PyStr "Timeout")).
Proof.
  intro Hnet.
  assert (E : fst (send_data net body api_url st)
              = Ok (false,
                    PyStr (if is_Timeout e then "Timeout"
                           else if is_ConnectionError e then "Connection Error"
                           else if is_HTTPError e then "HTTP Error: " ++ msg e
                           else msg e))).
  { unfold send_data, post, on_failure. run. rewrite Hnet.
    destruct (is_Timeout e);
      [|destruct (is_ConnectionError e); [|destruct (is_HTTPError e)]];
      reflexivity. }
  split; [exact E|]. intro C. rewrite E.
  unfold is_Timeout, is_ConnectionError. now rewrite C.
Qed.

Lemma failure_taxonomy_witness :
  fst (send_data
         (fun _ _ => Failed (mkExc ReadTimeout "Read timed out."))
         PyNone "http://host:3001" blank)
  = Ok (false, PyStr "Timeout").
Proof.
  exact (proj1 (failure_taxonomy
                  (fun _ _ => Failed (mkExc ReadTimeout "Read timed out."))
                  PyNone "http://host:3001" blank _ eq_refl)).
Defined.

End SenderFacts.

(** ** device_id.py *)

Section DeviceIdFacts.
Import Py DeviceId.

(** *** The text of a generated identifier *)

Lemma nibble_range (n : Z) (i : nat) : 0 <= nibble n i < 16.
Proof.
  unfold nibble. change 15 with (Z.ones 4).
  rewrite Z.land_ones by lia. apply Z.mod_pos_bound. reflexivity.
Qed.

Lemma nibble_bit (n : Z) (i : nat) (j : Z) :
  0 <= j < 4 -> Z.testbit (nibble n i) j = Z.testbit n (j + 4 * Z.of_nat i).
Proof.
  intro Hj. unfold nibble.
  rewrite Z.land_spec, Z.shiftr_spec by lia.
  replace (Z.testbit 15 j) with true; [apply andb_true_r|].
  assert (j = 0 \/ j = 1 \/ j = 2 \/ j = 3) as [->|[->|[->| ->]]] by lia;
    reflexivity.
Qed.

Ltac sixteen d H :=
  assert (d = 0 \/ d = 1 \/ d = 2 \/ d = 3 \/ d = 4 \/ d = 5 \/ d = 6 \/ d = 7
          \/ d = 8 \/ d = 9 \/ d = 10 \/ d = 11 \/ d = 12 \/ d = 13 \/ d = 14
          \/ d = 15) as H by lia.

Lemma is_hex_nibble (n : Z) (i : nat) : is_hex (hex_digit (nibble n i)) = true.
Proof.
  pose proof (nibble_range n i) as R.
  set (d := nibble n i) in *. sixteen d H.
  repeat (destruct H as [->|H]; [reflexivity|]). now rewrite H.
Qed.

Lemma uuid4_bit (r k : Z) : 0 <= k ->
  Z.testbit (uuid4_int r) k =
  (Z.testbit (r mod 2 ^ 128) k && negb (Z.testbit (Z.shiftl 49152 48) k)
   || Z.testbit (Z.shiftl 32768 48) k) && negb (Z.testbit (Z.shiftl 61440 64) k)
  || Z.testbit (Z.shiftl 4 76) k.
Proof.
  intro Hk. unfold uuid4_int.
  now rewrite Z.lor_spec, Z.land_spec, Z.lnot_spec, Z.lor_spec, Z.land_spec,
    Z.lnot_spec by lia.
Qed.

Lemma version_nibble (r : Z) : nibble (uuid4_int r) 19 = 4.
Proof.
  pose proof (nibble_range (uuid4_int r) 19) as R.
  pose proof (nibble_bit (uuid4_int r) 19 0 ltac:(lia)) as B0.
  pose proof (nibble_bit (uuid4_int r) 19 1 ltac:(lia)) as B1.
  pose proof (nibble_bit (uuid4_int r) 19 2 ltac:(lia)) as B2.
  pose proof (nibble_bit (uuid4_int r) 19 3 ltac:(lia)) as B3.
  rewrite uuid4_bit in B0, B1, B2, B3 by lia.
  cbn in B0, B1, B2, B3.
  rewrite ?andb_false_r, ?orb_false_r, ?orb_true_r in B0, B1, B2, B3.
  set (d := nibble (uuid4_int r) 19) in *. sixteen d H.
  repeat (destruct H as [->|H]; [first [reflexivity | discriminate]|]).
  subst d; rewrite H in *; discriminate.
Qed.

Lemma variant_nibble (r : Z) :
  is_variant (hex_digit (nibble (uuid4_int r) 15)) = true.
Proof.
  pose proof (nibble_range (uuid4_int r) 15) as R.
  pose proof (nibble_bit (uuid4_int r) 15 2 ltac:(lia)) as B2.
  pose proof (nibble_bit (uuid4_int r) 15 3 ltac:(lia)) as B3.
  rewrite uuid4_bit in B2, B3 by lia.
  cbn in B2, B3.
  rewrite ?andb_false_r, ?andb_true_r, ?orb_false_r, ?orb_true_r in B2, B3.
  set (d := nibble (uuid4_int r) 15) in *. sixteen d H.
  repeat (destruct H as [->|H]; [first [reflexivity | discriminate]|]).
  subst d; rewrite H in *; discriminate.
Qed.

Lemma new_uuid_shaped (r : Z) : uuid4_shaped (uuid_str (uuid4_int r)) = true.
Proof.
  unfold uuid4_shaped, uuid_str.
  set (i := uuid4_int r).
  cbv [hex_fixed]. cbn [substring append fits].
  change (Ascii.eqb "x" "x") with true.
  cbv beta iota.
  rewrite !is_hex_nibble.
  subst i. rewrite version_nibble, variant_nibble.
  reflexivity.
Qed.

(** *** Reading the identity back *)

(** One call on a usable identity file: the stored value is returned, the
    file is read and nothing else happens. *)
Lemma read_back (h : host) (st : state) (f : device_file) (v : pyval) :
  store st = Dir (Some f) ->
  usable_id f = Some v ->
  get_or_create_device_id h st
  = (Ok v, mkState (store st) (gpus st)
             (log st ++ [Consulted Read_device_file])).
Proof.
  destruct st as [c g l], f as [rd pr]. cbn [store gpus log].
  intros -> U. unfold usable_id in U. cbn [readable parsed] in U.
  destruct rd; [|discriminate].
  destruct pr as [[| | | | | |kvs]|]; try discriminate.
  unfold get_or_create_device_id, _ensure_dir, stored_id, load_device_file,
    str_in, getitem.
  run. cbn [readable parsed]. run. rewrite U. reflexivity.
Qed.

(** C6. Given a readable identity file whose JSON object has a [device_id]
    field, any number of successive calls (whatever the machine does at
    each of them) all return the stored value; the store is left as it
    was, and the only thing each call does is read the file: it is never
    written. *)
Theorem stored_id_is_stable (hs : list host) (st : state) (f : device_file)
    (kvs : list (string * pyval)) (v : pyval) :
  store st = Dir (Some f) ->
  readable f = true ->
  parsed f = Some (PyDict kvs) ->
  lookup "device_id" kvs = Some v ->
  fst (calls hs st) = repeat (Ok v) (length hs)
  /\ store (snd (calls hs st)) = store st
  /\ log (snd (calls hs st))
     = (log st ++ repeat (Consulted Read_device_file) (length hs))%list.
Proof.
  intros Hs Hr Hp Hl.
  assert (U : usable_id f = Some v) by (unfold usable_id; now rewrite Hr, Hp).
  clear Hr Hp Hl. revert st Hs.
  induction hs as [|h hs IH]; intros st Hs; cbn [calls length repeat].
  - cbn. now rewrite app_nil_r.
  - rewrite (read_back h st f v Hs U).
    set (st1 := mkState _ _ _).
    destruct (IH st1 Hs) as (R & S & L).
    destruct (calls hs st1) as [rs st2]. cbn [fst snd] in *.
    subst st1. cbn [store log] in *.
    rewrite R, S, L, <- app_assoc. auto.
Qed.

Lemma stored_id_is_stable_witness :
  let f := mkFile true (Some (PyDict [("device_id", PyStr "abc");
                                      ("created_at", PyStr "then")])) in
  let st := mkState (Dir (Some f)) [] [] in
  let h1 := mkHost (Got tt) 1 "t1" WriteOk in
  let h2 := mkHost (Failed (mkExc (OtherError "OSError") "")) 2 "t2"
              (OpenFails (mkExc (OtherError "OSError") "")) in
  fst (calls [h1; h2; h1] st) = [Ok (PyStr "abc"); Ok (PyStr "abc"); Ok (PyStr "abc")]
  /\ store (snd (calls [h1; h2; h1] st)) = Dir (Some f)
  /\ log (snd (calls [h1; h2; h1] st))
     = [Consulted Read_device_file; Consulted Read_device_file;
        Consulted Read_device_file].
Proof.
  intros f st h1 h2.
  exact (stored_id_is_stable [h1; h2; h1] st f _ (PyStr "abc")
           eq_refl eq_refl eq_refl eq_refl).
Defined.

(** C10. The value under [device_id] is returned as it is, whatever it is
    (an empty string, a number, [null], a list): the call succeeds with
    that value, no identifier is generated and nothing is written. *)
Theorem device_id_not_validated (h : host) (st : state) (f : device_file)
    (kvs : list (string * pyval)) (v : pyval) :
  store st = Dir (Some f) ->
  readable f = true ->
  parsed f = Some (PyDict kvs) ->
  lookup "device_id" kvs = Some v ->
  fst (get_or_create_device_id h st) = Ok v
  /\ store (snd (get_or_create_device_id h st)) = store st
  /\ ~ In (Consulted Uuid4)
        (skipn (length (log st)) (log (snd (get_or_create_device_id h st))))
  /\ (forall c, ~ In (Wrote c)
        (skipn (length (log st)) (log (snd (get_or_create_device_id h st))))).
Proof.
  intros Hs Hr Hp Hl.
  assert (U : usable_id f = Some v) by (unfold usable_id; now rewrite Hr, Hp).
  rewrite (read_back h st f v Hs U). cbn [fst snd store log].
  assert (E : skipn (length (log st)) (log st ++ [Consulted Read_device_file])
              = [Consulted Read_device_file]).
  { rewrite skipn_app, Nat.sub_diag, skipn_all. reflexivity. }
  rewrite E. repeat split.
  - intros [H|[]]. discriminate.
  - intros c [H|[]]. discriminate.
Qed.

Lemma device_id_not_validated_witness :
  let st v := mkState (Dir (Some (mkFile true (Some (PyDict [("device_id", v)]))))) [] [] in
  let h := mkHost (Got tt) 7 "t" WriteOk in
  fst (get_or_create_device_id h (st (PyStr ""))) = Ok (PyStr "")
  /\ fst (get_or_create_device_id h (st (PyInt 42))) = Ok (PyInt 42)
  /\ fst (get_or_create_device_id h (st PyNone)) = Ok PyNone
  /\ fst (get_or_create_device_id h (st (PyList [PyBool true])))
     = Ok (PyList [PyBool true]).
Proof.
  intros st h.
  pose (w v := proj1 (device_id_not_validated h (st v) _ _ v
                        eq_refl eq_refl eq_refl eq_refl)).
  exact (conj (w (PyStr "")) (conj (w (PyInt 42)) (conj (w PyNone)
          (w (PyList [PyBool true]))))).
Defined.

(** *** Generating an identity *)

(** What [stored_id] does on a file that is not usable: nothing is
    returned, the store is untouched. *)
Lemma stored_id_unusable (st : state) :
  unusable (store st) -> store st <> NoDir ->
  exists l, stored_id st = (Ok None, mkState (store st) (gpus st) l).
Proof.
  destruct st as [[|[[rd pr]|]] g l]; cbn [store]; intros U D.
  - now elim D.
  - unfold unusable, usable_id in U. cbn [readable parsed] in U.
    unfold stored_id, load_device_file, str_in, getitem. run.
    cbn [readable parsed].
    destruct rd; [|run; eexists; reflexivity].
    destruct pr as [[| | | | |xs|kvs]|]; run; try (eexists; reflexivity).
    + destruct (Text.contains "device_id" s); run; eexists; reflexivity.
    + destruct (existsb _ xs); run; eexists; reflexivity.
    + rewrite U. eexists; reflexivity.
  - unfold stored_id. run. eexists; reflexivity.
Qed.

(** C7, as the code has it.  Given an identity file that is absent,
    unreadable or malformed, and a configuration directory that exists or
    can be created, the call returns a freshly generated identifier in the
    textual form of a version-4 UUID; it tries to write the record
    [{device_id, created_at}] over whatever the file held, and when the
    write fails the failure is logged and the identifier returned all the
    same. *)
Theorem regenerates_when_unusable (h : host) (st : state) :
  unusable (store st) ->
  (store st = NoDir -> makedirs h = Got tt) ->
  fst (get_or_create_device_id h st) = Ok (PyStr (new_uuid h))
  /\ uuid4_shaped (new_uuid h) = true
  /\ store (snd (get_or_create_device_id h st)) = persisted h (store st)
  /\ (forall e, write h = OpenFails e \/ write h = DumpFails e ->
        In (Logged ERROR [Lit "Failed to persist device ID: "; Lit (msg e)])
           (log (snd (get_or_create_device_id h st)))).
Proof.
  intros U D.
  split; [|split; [apply new_uuid_shaped|]].
  - destruct st as [[|f] g l]; cbn [store] in *.
    + unfold get_or_create_device_id, _ensure_dir, stored_id,
        dump_device_file. run. rewrite (D eq_refl). run.
      destruct (write h); reflexivity.
    + destruct (stored_id_unusable (mkState (Dir f) g l) U) as [l' E];
        [discriminate|].
      unfold get_or_create_device_id, _ensure_dir, dump_device_file. run.
      rewrite E. run. destruct (write h); reflexivity.
  - destruct st as [[|f] g l]; cbn [store] in *.
    + unfold get_or_create_device_id, _ensure_dir, stored_id,
        dump_device_file, persisted. run. rewrite (D eq_refl). run.
      destruct (write h) as [|e|e]; cbn; (split; [reflexivity|]);
        intros e' [W|W]; inversion W; subst;
        apply in_or_app; right; left; reflexivity.
    + destruct (stored_id_unusable (mkState (Dir f) g l) U) as [l' E];
        [discriminate|].
      unfold get_or_create_device_id, _ensure_dir, dump_device_file,
        persisted. run. rewrite E. run.
      destruct (write h) as [|e|e], f as [old|]; cbn;
        (split; [reflexivity|]);
        intros e' [W|W]; inversion W; subst;
        apply in_or_app; right; left; reflexivity.
Qed.

Lemma regenerates_when_unusable_witness :
  let h := mkHost (Got tt) 81985529216486895 "2025-01-01 00:00:00"
             (DumpFails (mkExc (OtherError "OSError") "No space left")) in
  let st := mkState (Dir (Some (mkFile true (Some (PyDict [("id", PyInt 1)])))))
              [] [] in
  fst (get_or_create_device_id h st)
  = Ok (PyStr "00000000-0000-4000-8123-456789abcdef").
Proof.
  intros h st.
  exact (proj1 (regenerates_when_unusable h st eq_refl (fun _ => eq_refl))).
Defined.

(** C7, as stated, fails: with the configuration directory missing and
    not creatable the identity file is absent, and the call raises the
    error of [os.makedirs]. *)
Lemma missing_dir_uncreatable_raises :
  let denied := mkExc (OtherError "PermissionError") "Permission denied" in
  let h := mkHost (Failed denied) 0 "2025-01-01 00:00:00" WriteOk in
  let st := mkState NoDir [] [] in
  unusable (store st)
  /\ fst (get_or_create_device_id h st) = Raise denied
  /\ fst (get_or_create_device_id h st) <> Ok (PyStr (new_uuid h)).
Proof.
  cbv zeta. split; [exact I|]. split; [reflexivity|discriminate].
Qed.

(** *** More on the identity store *)

(** Generation in full: the state a generating call ends in. *)
Lemma generate (h : host) (st : state) :
  unusable (store st) ->
  (store st = NoDir -> makedirs h = Got tt) ->
  exists l,
    get_or_create_device_id h st
    = (Ok (PyStr (new_uuid h)),
       mkState (persisted h (store st)) (gpus st) l).
Proof.
  intros U D. destruct st as [[|f] g l]; cbn [store gpus] in *.
  - unfold get_or_create_device_id, _ensure_dir, stored_id,
      dump_device_file, persisted. run. rewrite (D eq_refl). run.
    destruct (write h); cbn; eexists; reflexivity.
  - destruct (stored_id_unusable (mkState (Dir f) g l) U) as [l' E];
      [discriminate|].
    unfold get_or_create_device_id, _ensure_dir, dump_device_file,
      persisted. run. rewrite E. run.
    destruct (write h), f as [old|]; cbn; eexists; reflexivity.
Qed.

Lemma usable_or_not (c : config_store) :
  unusable c \/ exists f v, c = Dir (Some f) /\ usable_id f = Some v.
Proof.
  destruct c as [|[f|]]; cbn; auto.
  destruct (usable_id f) as [v|] eqn:E; [right; now exists f, v | now left].
Qed.

(** The two ways a call can end. *)
Lemma get_or_create_outcome (h : host) (st : state) :
  (exists e st',
      store st = NoDir /\ makedirs h = Failed e
      /\ get_or_create_device_id h st = (Raise e, st'))
  \/ (exists d st',
        (store st <> NoDir \/ makedirs h = Got tt)
        /\ get_or_create_device_id h st = (Ok d, st')).
Proof.
  destruct (store st) as [|f] eqn:S.
  - destruct (makedirs h) as [[]|e0] eqn:Mk.
    + right. destruct (generate h st) as [l E];
        [now rewrite S | intros _; exact Mk |].
      do 2 eexists. split; [now right | exact E].
    + left. destruct st as [c g l]. cbn in S. subst c.
      do 2 eexists. split; [reflexivity|]. split; [reflexivity|].
      unfold get_or_create_device_id, _ensure_dir. run. rewrite Mk.
      reflexivity.
  - right. destruct (usable_or_not (store st)) as [U|(f' & v & Sf & U)].
    + destruct (generate h st U) as [l E]; [rewrite S; discriminate|].
      do 2 eexists. split; [left; discriminate | exact E].
    + do 2 eexists. split; [left; discriminate|].
      apply (read_back h st f' v Sf U).
Qed.

(** X6. The call raises in one situation only: the configuration
    directory is missing and [os.makedirs] fails; the exception is then
    the one of [os.makedirs].  It never ends the process. *)
Theorem raises_only_from_makedirs (h : host) (st : state) :
  (forall e,
      fst (get_or_create_device_id h st) = Raise e
      <-> store st = NoDir /\ makedirs h = Failed e)
  /\ (forall code, fst (get_or_create_device_id h st) <> Exit code).
Proof.
  destruct (store st) as [|f] eqn:S.
  - destruct (makedirs h) as [[]|e0] eqn:Mk.
    + destruct (generate h st) as [l E];
        [now rewrite S | intros _; exact Mk |].
      rewrite E. cbn. split; [|discriminate].
      intro e. split; [discriminate | intros [_ ?]; discriminate].
    + assert (E : fst (get_or_create_device_id h st) = Raise e0).
      { destruct st as [c g l]. cbn in S. subst c.
        unfold get_or_create_device_id, _ensure_dir. run. now rewrite Mk. }
      rewrite E. split; [|discriminate].
      intro e. split; [intro H; inversion H; auto
                      | intros [_ H]; inversion H; reflexivity].
  - destruct (usable_or_not (store st)) as [U|(f' & v & Sf & U)].
    + destruct (generate h st U) as [l E]; [rewrite S; discriminate|].
      rewrite E. cbn. split; [|discriminate].
      intro e. split; [discriminate | intros [? _]; discriminate].
    + rewrite (read_back h st f' v Sf U). cbn. split; [|discriminate].
      intro e. split; [discriminate | intros [? _]; discriminate].
Qed.

Lemma calls_read_back (hs : list host) (st : state) (f : device_file)
    (v : pyval) :
  store st = Dir (Some f) -> usable_id f = Some v ->
  fst (calls hs st) = repeat (Ok v) (length hs)
  /\ store (snd (calls hs st)) = store st.
Proof.
  intros Hs U. revert st Hs.
  induction hs as [|h hs IH]; intros st Hs; cbn [calls length repeat].
  - now cbn.
  - rewrite (read_back h st f v Hs U).
    set (st1 := mkState _ _ _).
    destruct (IH st1 Hs) as (R & S).
    destruct (calls hs st1) as [rs st2]. cbn [fst snd] in *.
    now rewrite R, S.
Qed.

(** X7. Round trip through the file: when a call generates an identifier
    and the write succeeds (the file being absent, or readable), every
    later call, whatever the machine does then, returns that identifier,
    and the file holds the record with the creation time. *)
Theorem generated_id_is_read_back (h : host) (hs : list host) (st : state) :
  unusable (store st) ->
  (store st = NoDir -> makedirs h = Got tt) ->
  (forall f, store st = Dir (Some f) -> readable f = true) ->
  write h = WriteOk ->
  fst (calls (h :: hs) st) = repeat (Ok (PyStr (new_uuid h))) (S (length hs))
  /\ store (snd (calls (h :: hs) st))
     = Dir (Some (mkFile true
                    (Some (PyDict [("device_id", PyStr (new_uuid h));
                                   ("created_at", PyStr (now h))])))).
Proof.
  intros U D R W. destruct (generate h st U D) as [l E].
  cbn [calls length repeat]. rewrite E.
  assert (P : persisted h (store st)
              = Dir (Some (mkFile true (Some (identity_record h))))).
  { unfold persisted. rewrite W.
    destruct (store st) as [|[f|]] eqn:S; [reflexivity| |reflexivity].
    now rewrite (R f eq_refl). }
  rewrite P.
  set (st1 := mkState _ _ _).
  destruct (calls_read_back hs st1 _ (PyStr (new_uuid h)) eq_refl eq_refl)
    as [Rs Ss].
  destruct (calls hs st1) as [rs st2]. cbn [fst snd] in *.
  now rewrite Rs, Ss.
Qed.

Lemma generated_id_is_read_back_witness :
  let h1 := mkHost (Got tt) 81985529216486895 "2025-01-01 12:00:00" WriteOk in
  let h2 := mkHost (Failed (mkExc (OtherError "OSError") "")) 7 "later"
              (OpenFails (mkExc (OtherError "OSError") "")) in
  fst (calls [h1; h2; h2] blank)
  = [Ok (PyStr "00000000-0000-4000-8123-456789abcdef");
     Ok (PyStr "00000000-0000-4000-8123-456789abcdef");
     Ok (PyStr "00000000-0000-4000-8123-456789abcdef")].
Proof.
  intros h1 h2.
  exact (proj1 (generated_id_is_read_back h1 [h2; h2] blank I
                  (fun _ => eq_refl)
                  (fun f E => match E in _ = c return
                                match c with
                                | Dir (Some _) => _
                                | _ => True
                                end
                              with eq_refl => I end)
                  eq_refl)).
Defined.

(** X8. A write that fails is not made up for: the identifier is returned
    for this call only, and the next call generates another one from its
    own random source. *)
Theorem failed_write_loses_the_id (h1 h2 : host) (st : state) :
  unusable (store st) ->
  (store st = NoDir -> makedirs h1 = Got tt) ->
  write h1 <> WriteOk ->
  fst (calls [h1; h2] st) = [Ok (PyStr (new_uuid h1)); Ok (PyStr (new_uuid h2))].
Proof.
  intros U D W. destruct (generate h1 st U D) as [l E].
  cbn [calls]. rewrite E.
  set (st1 := mkState _ _ _).
  assert (U1 : unusable (store st1)).
  { subst st1. cbn [store]. unfold persisted.
    destruct (write h1) eqn:Wr; [now elim W | |].
    - destruct (store st) as [|[f|]]; cbn in *; auto.
    - unfold unusable, usable_id. cbn [readable parsed].
      now destruct (match store st with Dir (Some old) => readable old
                                      | _ => true end). }
  destruct (generate h2 st1 U1) as [l2 E2].
  { subst st1. cbn [store]. unfold persisted.
    destruct (write h1); [discriminate| |discriminate].
    destruct (store st); discriminate. }
  now rewrite E2.
Qed.

Lemma failed_write_loses_the_id_witness :
  let full := mkExc (OtherError "OSError") "No space left on device" in
  let h1 := mkHost (Got tt) 1 "t1" (DumpFails full) in
  let h2 := mkHost (Got tt) 2 "t2" WriteOk in
  fst (calls [h1; h2] blank)
  = [Ok (PyStr "00000000-0000-4000-8000-000000000001");
     Ok (PyStr "00000000-0000-4000-8000-000000000002")].
Proof.
  intros full h1 h2.
  exact (failed_write_loses_the_id h1 h2 blank I (fun _ => eq_refl)
           ltac:(discriminate)).
Defined.

(** X9. An identity file that cannot be opened or parsed makes the call
    log exactly one warning, made of the fixed prefix and the text of the
    error that reading raised; a missing directory, a missing file and a
    file that holds a JSON object make it log none; and no call logs more
    than one. *)
Theorem warning_on_corrupt_file_only (h : host) (st : state) :
  (forall f e,
     store st = Dir (Some f) ->
     fst (load_device_file f st) = Raise e ->
     warnings (new_events (get_or_create_device_id h) st)
     = [[Lit "Corrupt device file found, regenerating ID. Error: ";
         Lit (msg e)]])
  /\ (store st = NoDir \/ store st = Dir None
      \/ (exists f kvs, store st = Dir (Some f) /\ readable f = true
            /\ parsed f = Some (PyDict kvs)) ->
      warnings (new_events (get_or_create_device_id h) st) = [])
  /\ (length (warnings (new_events (get_or_create_device_id h) st)) <= 1)%nat.
Proof.
  assert (Quiet : store st = NoDir \/ store st = Dir None
                  \/ (exists f kvs, store st = Dir (Some f)
                        /\ readable f = true
                        /\ parsed f = Some (PyDict kvs)) ->
                  warnings (new_events (get_or_create_device_id h) st) = []).
  { destruct st as [c g l]. cbn [store].
    intros [->|[->|(f & kvs & -> & R & P)]];
      unfold new_events, get_or_create_device_id, _ensure_dir, stored_id,
        load_device_file, dump_device_file, str_in, getitem; run.
    - destruct (makedirs h) as [[]|e]; run;
        [destruct (write h)|];
        cbn [fst snd log store gpus]; rewrite <- ?app_assoc; cbn [app];
        rewrite ?skipn_app, ?Nat.sub_diag, ?skipn_all; reflexivity.
    - destruct (write h);
        cbn [fst snd log store gpus]; rewrite <- ?app_assoc; cbn [app];
        rewrite ?skipn_app, ?Nat.sub_diag, ?skipn_all; reflexivity.
    - destruct f as [rd pr]. cbn [readable parsed] in *. subst rd pr.
      run. destruct (lookup "device_id" kvs) as [v|]; run;
        [|destruct (write h)];
        cbn [fst snd log store gpus]; rewrite <- ?app_assoc; cbn [app];
        rewrite ?skipn_app, ?Nat.sub_diag, ?skipn_all; reflexivity. }
  split; [|split; [exact Quiet|]].
  - destruct st as [c g l]. cbn [store]. intros [rd pr] e ->.
    unfold new_events, get_or_create_device_id, _ensure_dir, stored_id,
      load_device_file, dump_device_file, str_in, getitem.
    run. cbn [readable parsed].
    destruct rd; [destruct pr as [data|]|]; run;
      intro E; inversion E; subst e;
      destruct (write h); cbn [fst snd log store gpus];
      rewrite <- ?app_assoc; cbn [app];
      rewrite skipn_app, Nat.sub_diag, skipn_all; reflexivity.
  - destruct (store st) as [|[[rd pr]|]] eqn:S;
      [rewrite Quiet; auto | | rewrite Quiet; auto].
    destruct rd; [destruct pr as [[]|]|].
    7: { rewrite Quiet; [auto|]. right. right. do 2 eexists.
         split; [reflexivity|]. now split. }
    all: destruct st as [c g l]; cbn [store] in S; subst c;
      unfold new_events, get_or_create_device_id, _ensure_dir, stored_id,
        load_device_file, dump_device_file, str_in, getitem; run;
      cbn [readable parsed]; run;
      repeat match goal with
             | |- context [if ?b then _ else _] => destruct b; run
             | |- context [match write ?x with _ => _ end] => destruct (write x)
             end;
      cbn [fst snd log store gpus]; rewrite <- ?app_assoc; cbn [app];
      rewrite ?skipn_app, ?Nat.sub_diag, ?skipn_all; cbn; auto.
Qed.

End DeviceIdFacts.

(** ** scanner.py *)

Section ScannerFacts.
Import Py Scanner.

(** *** Rounding to two decimals *)

Lemma floor_bounds (x : Q) :
  exists q, q = inject_Z (Qfloor x) /\ (q <= x /\ x < q + 1)%Q.
Proof.
  eexists; split; [reflexivity|].
  split; [apply Qfloor_le|].
  pose proof (Qlt_floor x) as H. rewrite inject_Z_plus in H. exact H.
Qed.

(** [round_half_even] is within one half of its argument. *)
Lemma round_half_even_close (x : Q) :
  (Qabs (inject_Z (round_half_even x) - x) <= 1 # 2)%Q.
Proof.
  unfold round_half_even.
  destruct (floor_bounds x) as (q & Eq & L & U).
  set (f := Qfloor x) in *. clearbody f.
  apply Qabs_Qle_condition.
  destruct (x - inject_Z f ?= 1 # 2)%Q eqn:C;
    [apply Qeq_alt in C | apply Qlt_alt in C | apply Qgt_alt in C];
    [destruct (Z.even f)| |]; rewrite ?inject_Z_plus;
    change (inject_Z 1) with 1%Q; rewrite <- Eq in *; split; lra.
Qed.

(** Where [round_half_even] reaches 10. *)
Lemma round_half_even_lt_10 (x : Q) :
  round_half_even x < 10 <-> (x < 19 # 2)%Q.
Proof.
  unfold round_half_even.
  destruct (floor_bounds x) as (q & Eq & L & U).
  set (f := Qfloor x) in *. clearbody f.
  assert (Hf : f <= 8 \/ f = 9 \/ 10 <= f) by lia.
  destruct Hf as [Hf|[Hf|Hf]].
  - assert (q <= 8)%Q by (rewrite Eq; rewrite Zle_Qle in Hf; exact Hf).
    split; [intros _; lra|intros _].
    destruct (x - inject_Z f ?= 1 # 2)%Q; [destruct (Z.even f)| |]; lia.
  - rewrite Hf in *. change (inject_Z 9) with (9 # 1)%Q in *. subst q.
    destruct (x - (9 # 1) ?= 1 # 2)%Q eqn:C;
      [apply Qeq_alt in C | apply Qlt_alt in C | apply Qgt_alt in C];
      cbn [Z.even]; split; intro H; try lia; try lra.
  - assert (10 <= q)%Q by (rewrite Eq; rewrite Zle_Qle in Hf; exact Hf).
    split; [intro H0|intro; lra].
    destruct (x - inject_Z f ?= 1 # 2)%Q; [destruct (Z.even f)| |]; lia.
Qed.

Lemma gib_exact (m : Z) :
  (inject_Z m / inject_Z (1024 ^ 3) * 100 == (m * 100) # 1073741824)%Q.
Proof.
  change (1024 ^ 3) with 1073741824.
  unfold Qeq, Qdiv, Qmult, Qinv, inject_Z. cbn. lia.
Qed.

Lemma round_half_even_compat (x y : Q) :
  (x == y)%Q -> round_half_even x = round_half_even y.
Proof.
  intro E. unfold round_half_even.
  rewrite (Qfloor_comp _ _ E).
  assert (C : ((x - inject_Z (Qfloor y) ?= 1 # 2) = (y - inject_Z (Qfloor y) ?= 1 # 2))%Q)
    by (now rewrite E).
  now rewrite C.
Qed.

(** The threshold of line 129 in bytes. *)
Lemma gib_below_tenth (m : Z) :
  0 <= m -> float_lt (gib m) (1 # 10) = (m <=? 102005473).
Proof.
  intro Hm. unfold float_lt, gib, round2.
  rewrite (round_half_even_compat _ _ (gib_exact m)).
  set (k := round_half_even _).
  assert (K : k < 10 <-> m <= 102005473).
  { subst k. rewrite round_half_even_lt_10. unfold Qlt. cbn. lia. }
  destruct (Qle_bool (1 # 10) (Qred (k # 100))) eqn:B; cbn [negb]; symmetry.
  - apply Qle_bool_iff in B. rewrite Qred_correct in B.
    unfold Qle in B. cbn in B. apply Z.leb_gt. lia.
  - apply Z.leb_le. apply K.
    destruct (Z_lt_le_dec k 10) as [|G]; [assumption|exfalso].
    assert (B' : Qle_bool (1 # 10) (Qred (k # 100)) = true).
    { apply Qle_bool_iff. rewrite Qred_correct. unfold Qle. cbn. lia. }
    congruence.
Qed.

Lemma gib_close (m : Z) :
  (Qabs (gib m - inject_Z m / inject_Z (1024 ^ 3)) <= 1 # 200)%Q.
Proof.
  unfold gib, round2. rewrite Qred_correct.
  set (x := (inject_Z m / inject_Z (1024 ^ 3))%Q).
  pose proof (round_half_even_close (x * 100)) as H.
  set (k := round_half_even (x * 100)) in *.
  apply Qabs_Qle_condition in H. apply Qabs_Qle_condition.
  assert (E : (k # 100 == inject_Z k * (1 # 100))%Q).
  { unfold Qeq, Qmult, inject_Z. cbn. lia. }
  rewrite E. clearbody x. generalize dependent (inject_Z k).
  intros q [H1 H2] _. split; lra.
Qed.

(** C5, as the code has it.  For a parsed value whose magnitude a float
    holds exactly (below [2^53]), the [vram_total_gb] of a WMIC entry
    depends on the magnitude only: it is exactly 0 when [|bytes| / 1024^3]
    rounded to two decimals is below 0.1, which is when
    [|bytes| <= 102005473]; otherwise it is [|bytes| / 1024^3] rounded to
    two decimals (a multiple of 1/100 within 1/200 of the quotient).  A
    negative value is reported by its magnitude. *)
Theorem wmic_vram_uses_magnitude (vram_bytes : Z) :
  float_exact vram_bytes ->
  (Z.abs vram_bytes <= 102005473 -> wmic_vram_gb vram_bytes = PyInt 0)
  /\ (102005473 < Z.abs vram_bytes ->
      wmic_vram_gb vram_bytes = PyFloat (gib (Z.abs vram_bytes)))
  /\ wmic_vram_gb (- vram_bytes) = wmic_vram_gb vram_bytes
  /\ (Qabs (gib (Z.abs vram_bytes)
            - inject_Z (Z.abs vram_bytes) / inject_Z (1024 ^ 3)) <= 1 # 200)%Q
  /\ exists k, (gib (Z.abs vram_bytes) == k # 100)%Q.
Proof.
  intros _. unfold wmic_vram_gb. rewrite Z.abs_opp.
  rewrite (gib_below_tenth (Z.abs vram_bytes) (Z.abs_nonneg _)).
  repeat split.
  - intro H. apply Z.leb_le in H. now rewrite H.
  - intro H. apply Z.leb_gt in H. now rewrite H.
  - apply gib_close.
  - eexists. unfold gib, round2. apply Qred_correct.
Qed.

Lemma wmic_vram_uses_magnitude_witness :
  wmic_vram_gb 67108864 = PyInt 0
  /\ wmic_vram_gb (-4294967296) = PyFloat 4
  /\ wmic_vram_gb 4294967296 = wmic_vram_gb (-4294967296).
Proof.
  exact (conj (proj1 (wmic_vram_uses_magnitude 67108864 eq_refl)
                 ltac:(discriminate))
           (conj (proj1 (proj2 (wmic_vram_uses_magnitude (-4294967296)
                                  eq_refl)) eq_refl)
                 (proj1 (proj2 (proj2 (wmic_vram_uses_magnitude (-4294967296)
                                         eq_refl)))))).
Defined.

(** C5, as stated, fails: an [AdapterRAM] of [-2147483648] (2 GiB wrapped
    around 32 bits) is reported as 2.0, not 0; and 103079216 bytes, which
    is 0.096 GiB, is reported as 0.1, not 0. *)
Lemma negative_vram_not_clamped :
  wmic_vram_gb (-2147483648) = PyFloat 2
  /\ ~ clamped_as_stated (-2147483648)
  /\ wmic_vram_gb 103079216 = PyFloat (1 # 10)
  /\ ~ clamped_as_stated 103079216.
Proof.
  repeat split; try reflexivity; vm_compute; discriminate.
Qed.

(** *** Computations that only append *)

Section Uniform.
Context (P : event -> Prop).

Lemma uniform_ret {A} (a : A) : uniform P (ret a).
Proof.
  exists (Ok a), [], []. split; [constructor|].
  intros [c g l]. unfold ret. cbn. now rewrite !app_nil_r.
Qed.

Lemma uniform_raise {A} (e : exc) : uniform P (@raise A e).
Proof.
  exists (Raise e), [], []. split; [constructor|].
  intros [c g l]. unfold raise. cbn. now rewrite !app_nil_r.
Qed.

Lemma uniform_consult {A} (f : facility) (a : answer A) :
  P (Consulted f) -> uniform P (consult f a).
Proof.
  intro Hf.
  destruct a as [v|e];
    [exists (Ok v), [], [Consulted f] | exists (Raise e), [], [Consulted f]];
    (split; [now repeat constructor|]);
    intros [c g l]; unfold consult; cbn; now rewrite app_nil_r.
Qed.

Lemma uniform_bind {A B} (m : M A) (k : A -> M B) :
  uniform P m -> (forall a, uniform P (k a)) -> uniform P (bind m k).
Proof.
  intros (r & g & l & Hl & Hm) Hk. destruct r as [a|e|c].
  - destruct (Hk a) as (r' & g' & l' & Hl' & Hka).
    exists r', (g ++ g')%list, (l ++ l')%list.
    split; [now apply Forall_app|]. intro st.
    unfold bind. rewrite Hm, Hka. cbn. now rewrite !app_assoc.
  - exists (Raise e), g, l. split; [assumption|].
    intro st. unfold bind. now rewrite Hm.
  - exists (Exit c), g, l. split; [assumption|].
    intro st. unfold bind. now rewrite Hm.
Qed.

Lemma uniform_try_except {A} (m : M A) (h : exc -> M A) :
  uniform P m -> (forall e, uniform P (h e)) -> uniform P (try_except m h).
Proof.
  intros (r & g & l & Hl & Hm) Hh. destruct r as [a|e|c].
  - exists (Ok a), g, l. split; [assumption|].
    intro st. unfold try_except. now rewrite Hm.
  - destruct (Hh e) as (r' & g' & l' & Hl' & He).
    exists r', (g ++ g')%list, (l ++ l')%list.
    split; [now apply Forall_app|]. intro st.
    unfold try_except. rewrite Hm, He. cbn. now rewrite !app_assoc.
  - exists (Exit c), g, l. split; [assumption|].
    intro st. unfold try_except. now rewrite Hm.
Qed.

Lemma uniform_for_each {A} (xs : list A) (body : A -> M unit) :
  (forall x, uniform P (body x)) -> uniform P (for_each xs body).
Proof.
  intro Hb. induction xs as [|x xs IH]; cbn [for_each].
  - apply uniform_ret.
  - apply uniform_bind; [apply Hb | intro; exact IH].
Qed.

End Uniform.

Lemma uniform_emit P (ev : event) : P ev -> uniform P (emit ev).
Proof.
  intro Hev. exists (Ok tt), [], [ev]. split; [now repeat constructor|].
  intros [c g l]. unfold emit. cbn. now rewrite app_nil_r.
Qed.

Lemma uniform_append_gpu P (entry : pyval) : uniform P (append_gpu entry).
Proof.
  exists (Ok tt), [entry], []. split; [constructor|].
  intros [c g l]. unfold append_gpu. cbn. now rewrite app_nil_r.
Qed.

Lemma uniform_try_pass P (m : M unit) : uniform P m -> uniform P (try_pass m).
Proof.
  intros (r & g & l & Hl & Hm). exists (Ok tt), g, l. split; [assumption|].
  intro st. unfold try_pass. rewrite Hm. now destruct r.
Qed.

(** A uniform computation on any state, from its run on [blank]. *)
Lemma uniform_frame {A} P (m : M A) (st : state) :
  uniform P m ->
  m st = (fst (m blank),
          mkState (store st) (gpus st ++ yield m) (log st ++ calls_of m))
  /\ Forall P (calls_of m).
Proof.
  intros (r & g & l & Hl & Hm). unfold yield, calls_of.
  rewrite (Hm blank), (Hm st). split; [reflexivity | exact Hl].
Qed.

Lemma try_pass_ok (m : M unit) (st : state) : fst (try_pass m st) = Ok tt.
Proof. unfold try_pass. now destruct (m st) as [[| |] ?]. Qed.

(** Breaks a goal [uniform P m] along the structure of [m]; what is left
    are the side conditions [P ev] on the events [m] logs. *)
Ltac uniformity :=
  repeat first
    [ apply uniform_try_pass
    | apply uniform_bind; [|intro]
    | apply uniform_try_except; [|intro]
    | apply uniform_for_each; intro
    | apply uniform_ret | apply uniform_raise | apply uniform_append_gpu
    | apply uniform_consult | apply uniform_emit
    | match goal with |- uniform _ (if ?b then _ else _) => destruct b end
    | match goal with |- uniform _ (match ?x with _ => _ end) => destruct x end ].

Lemma gputil_uniform (h : host) :
  uniform (eq (Consulted GPUtil_getGPUs)) (gputil_strategy h).
Proof. unfold gputil_strategy. uniformity; reflexivity. Qed.

Lemma torch_uniform (h : host) : uniform torch_call (torch_strategy h).
Proof. unfold torch_strategy. uniformity; unfold torch_call; auto. Qed.

Lemma wmic_uniform (h : host) :
  uniform (eq (Consulted Wmic_video)) (wmic_strategy h).
Proof. unfold wmic_strategy. uniformity; reflexivity. Qed.

(** *** The GPU collector *)

(** A strategy on any state: it returns normally, appends its yield and
    logs its calls. *)
Lemma strategy_frame P (s : M unit) (st : state) :
  uniform P s -> fst (s blank) = Ok tt ->
  s st = (Ok tt,
          mkState (store st) (gpus st ++ yield s) (log st ++ calls_of s)).
Proof.
  intros U E. destruct (uniform_frame P s st U) as [F _].
  now rewrite F, E.
Qed.

Lemma gputil_frame (h : host) (st : state) :
  gputil_strategy h st
  = (Ok tt, mkState (store st) (gpus st ++ yield (gputil_strategy h))
              (log st ++ calls_of (gputil_strategy h))).
Proof.
  eapply strategy_frame; [apply gputil_uniform | apply try_pass_ok].
Qed.

Lemma torch_frame (h : host) (st : state) :
  torch_strategy h st
  = (Ok tt, mkState (store st) (gpus st ++ yield (torch_strategy h))
              (log st ++ calls_of (torch_strategy h))).
Proof.
  eapply strategy_frame; [apply torch_uniform | apply try_pass_ok].
Qed.

Lemma wmic_frame (h : host) (st : state) :
  wmic_strategy h st
  = (Ok tt, mkState (store st) (gpus st ++ yield (wmic_strategy h))
              (log st ++ calls_of (wmic_strategy h))).
Proof.
  eapply strategy_frame; [apply wmic_uniform | apply try_pass_ok].
Qed.

(** [get_gpu_info] in closed form. *)
Lemma get_gpu_info_eq (h : host) (st : state) :
  let y1 := yield (gputil_strategy h) in
  let y2 := yield (torch_strategy h) in
  let y3 := yield (wmic_strategy h) in
  let c1 := calls_of (gputil_strategy h) in
  let c2 := calls_of (torch_strategy h) in
  let c3 := calls_of (wmic_strategy h) in
  get_gpu_info h st
  = match y1, y2 with
    | _ :: _, _ => (Ok y1, mkState (store st) y1 (log st ++ c1))
    | [], _ :: _ => (Ok y2, mkState (store st) y2 (log st ++ c1 ++ c2))
    | [], [] =>
        if on_windows h
        then (Ok y3, mkState (store st) y3 (log st ++ c1 ++ c2 ++ c3))
        else (Ok [], mkState (store st) [] (log st ++ c1 ++ c2))
    end.
Proof.
  intros. unfold get_gpu_info. run.
  rewrite gputil_frame. cbn [store gpus log app]. fold y1 c1.
  destruct y1 as [|d1 y1]; cbn [is_empty truthy negb andb].
  - rewrite torch_frame. cbn [store gpus log app]. fold y2 c2.
    destruct y2 as [|d2 y2]; cbn [is_empty truthy negb andb].
    + fold (on_windows h). destruct (on_windows h).
      * rewrite wmic_frame. cbn [store gpus log app]. fold y3 c3.
        now rewrite <- !app_assoc.
      * now rewrite <- !app_assoc.
    + now rewrite <- !app_assoc.
  - reflexivity.
Qed.

Lemma gputil_strategy_ext (h h' : host) :
  gputil h' = gputil h -> gputil_strategy h' = gputil_strategy h.
Proof. unfold gputil_strategy. now intros ->. Qed.

Lemma torch_strategy_ext (h h' : host) :
  torch h' = torch h -> torch_strategy h' = torch_strategy h.
Proof. unfold torch_strategy. now intros ->. Qed.

(** C1. The list [get_gpu_info] returns is what the first strategy that
    yields a device yields, in the order GPUtil, torch, WMIC (the last on
    Windows only); once a strategy has yielded a device no later strategy
    is called, and what the later ones would have answered does not change
    the result; when nothing is yielded the result is the empty list. *)
Theorem first_strategy_wins (h : host) (st : state) :
  let y1 := yield (gputil_strategy h) in
  let y2 := yield (torch_strategy h) in
  let y3 := yield (wmic_strategy h) in
  let c1 := calls_of (gputil_strategy h) in
  let c2 := calls_of (torch_strategy h) in
  let c3 := calls_of (wmic_strategy h) in
  let out := get_gpu_info h st in
  (y1 <> [] -> fst out = Ok y1 /\ log (snd out) = (log st ++ c1)%list)
  /\ (y1 = [] -> y2 <> [] ->
      fst out = Ok y2 /\ log (snd out) = (log st ++ c1 ++ c2)%list)
  /\ (y1 = [] -> y2 = [] ->
      fst out = Ok (if on_windows h then y3 else [])
      /\ log (snd out)
         = (log st ++ c1 ++ c2 ++ if on_windows h then c3 else [])%list)
  /\ (y1 = [] -> y2 = [] -> y3 = [] -> fst out = Ok [])
  /\ (Forall (eq (Consulted GPUtil_getGPUs)) c1
      /\ Forall torch_call c2
      /\ Forall (eq (Consulted Wmic_video)) c3)
  /\ (forall h' st', gputil h' = gputil h -> y1 <> [] ->
        fst (get_gpu_info h' st') = Ok y1)
  /\ (forall h' st', gputil h' = gputil h -> torch h' = torch h ->
        y1 = [] -> y2 <> [] -> fst (get_gpu_info h' st') = Ok y2).
Proof.
  intros. subst out.
  repeat match goal with |- _ /\ _ => split end.
  - intro N. rewrite get_gpu_info_eq. fold y1 c1.
    destruct y1; [now elim N | auto].
  - intros E N. rewrite get_gpu_info_eq. fold y1 y2 c1 c2. rewrite E.
    destruct y2; [now elim N | auto].
  - intros E1 E2. rewrite get_gpu_info_eq. fold y1 y2 y3 c1 c2 c3.
    rewrite E1, E2. destruct (on_windows h); cbn [fst snd log];
      rewrite ?app_nil_r; auto.
  - intros E1 E2 E3. rewrite get_gpu_info_eq. fold y1 y2 y3.
    rewrite E1, E2, E3. now destruct (on_windows h).
  - apply (uniform_frame _ _ blank (gputil_uniform h)).
  - apply (uniform_frame _ _ blank (torch_uniform h)).
  - apply (uniform_frame _ _ blank (wmic_uniform h)).
  - intros h' st' G N. rewrite get_gpu_info_eq.
    rewrite (gputil_strategy_ext h h' G). fold y1.
    destruct y1; [now elim N | reflexivity].
  - intros h' st' G T E N. rewrite get_gpu_info_eq.
    rewrite (gputil_strategy_ext h h' G), (torch_strategy_ext h h' T).
    fold y1 y2. rewrite E. destruct y2; [now elim N | reflexivity].
Qed.

Lemma for_each_append {A} (entry : A -> pyval) (xs : list A) (st : state) :
  for_each xs (fun x => append_gpu (entry x)) st
  = (Ok tt, mkState (store st) (gpus st ++ map entry xs) (log st)).
Proof.
  revert st. induction xs as [|x xs IH]; intros [c g l]; cbn [for_each map].
  - unfold ret. cbn. now rewrite app_nil_r.
  - unfold bind, append_gpu at 1. cbn [store gpus log].
    rewrite IH. cbn [store gpus log]. now rewrite <- app_assoc.
Qed.

(** What the first and the third strategy yield. *)
Lemma gputil_yield (h : host) :
  yield (gputil_strategy h)
  = match gputil h with
    | Got devices => map gputil_entry devices
    | Failed _ => []
    end.
Proof.
  unfold yield, gputil_strategy. cbv [try_pass bind consult].
  destruct (gputil h) as [devices|e]; [|reflexivity].
  now rewrite for_each_append.
Qed.

Lemma wmic_yield (h : host) :
  yield (wmic_strategy h)
  = match wmic_video h with
    | Got output => map wmic_entry (tl (stripped_lines output))
    | Failed _ => []
    end.
Proof.
  unfold yield, wmic_strategy. cbv [try_pass bind consult].
  destruct (wmic_video h) as [output|e]; [|reflexivity].
  now rewrite for_each_append.
Qed.

Lemma torch_loop (ds : list (answer torch_props)) (st : state) :
  gpus (snd (for_each ds (fun d =>
                props <- consult Torch_cuda d ;;
                append_gpu (torch_entry props))%py st))
  = (gpus st ++ map torch_entry (answered ds))%list.
Proof.
  revert st. induction ds as [|[p|e] ds IH]; intros [c g l];
    cbn [for_each answered map].
  - cbn. now rewrite app_nil_r.
  - unfold bind at 1. unfold bind at 1, consult at 1, append_gpu at 1.
    cbn [store gpus log]. rewrite IH. cbn [gpus]. now rewrite <- app_assoc.
  - cbn. now rewrite app_nil_r.
Qed.

(** What the second strategy yields: the CUDA devices answered before the
    first failure, or else the MPS entry. *)
Lemma torch_yield (h : host) :
  yield (torch_strategy h)
  = match torch h with
    | Got t =>
        match cuda_is_available t with
        | Got true =>
            match cuda_devices t with
            | Got ds => map torch_entry (answered ds)
            | Failed _ => []
            end
        | Got false =>
            if has_mps t then
              match mps_is_available t with
              | Got true => [mps_entry]
              | _ => []
              end
            else []
        | Failed _ => []
        end
    | Failed _ => []
    end.
Proof.
  unfold yield, torch_strategy. cbv [try_pass].
  destruct (torch h) as [t|e]; [|reflexivity].
  unfold bind at 1, consult at 1. cbn [store gpus log blank].
  destruct (cuda_is_available t) as [[|]|e]; [| |reflexivity].
  - unfold bind at 1, consult at 1. cbn [store gpus log].
    unfold bind at 1, consult at 1. cbn [store gpus log].
    destruct (cuda_devices t) as [ds|e]; [|reflexivity].
    match goal with
    | |- context [for_each ds ?b ?s] => pose proof (torch_loop ds s) as L;
        destruct (for_each ds b s) as [[| |] s']
    end; exact L.
  - unfold bind at 1, consult at 1. cbn [store gpus log].
    destruct (has_mps t); [|reflexivity].
    unfold bind at 1, consult at 1. cbn [store gpus log].
    destruct (mps_is_available t) as [[|]|e]; reflexivity.
Qed.

(** A CUDA device answers, the next one fails: the one entry appended
    stays, so the torch strategy wins and WMIC is not called. *)
Example partial_torch_yield :
  get_gpu_info
    (Demo.laptop "Windows" (Got 0%Q) (Got []) (Got Demo.flaky_torch)
       (Got Demo.video_output)) blank
  = (Ok [PyDict [("name", PyStr "NVIDIA GeForce RTX 3060");
                 ("vram_total_gb", PyFloat 12);
                 ("source", PyStr "torch")]],
     mkState NoDir
       [PyDict [("name", PyStr "NVIDIA GeForce RTX 3060");
                ("vram_total_gb", PyFloat 12);
                ("source", PyStr "torch")]]
       [Consulted GPUtil_getGPUs; Consulted Import_torch;
        Consulted Torch_cuda; Consulted Torch_cuda; Consulted Torch_cuda;
        Consulted Torch_cuda]).
Proof. reflexivity. Qed.

(** Without GPUtil and torch, on Windows, the WMIC table is read. *)
Example wmic_fallback :
  fst (get_gpu_info Demo.hw blank)
  = Ok [PyDict [("name", PyStr "Intel(R) UHD Graphics");
                ("vram_total_gb", PyFloat 1);
                ("source", PyStr "wmic")]].
Proof. reflexivity. Qed.

(** *** The snapshot *)

Lemma get_cpu_info_ok (h : host) (st : state) :
  exists v st',
    get_cpu_info h st = (Ok v, st') /\ (cpu_fails h -> v = PyDict []).
Proof.
  unfold get_cpu_info, cpu_fails. run.
  destruct (String.eqb (platform_system h) "Windows");
    [destruct (wmic_cpu h) as [o|?];
       [destruct (stripped_lines o) as [|? [|? ?]]|]|];
    destruct (cpu_count_physical h), (cpu_count_logical h),
      (cpu_freq h) as [[?|]|?], (cpu_percent h);
    cbn; do 2 eexists; (split; [reflexivity|]);
    intros [F|[F|[F|F]]]; first [contradiction F | reflexivity].
Qed.

Lemma get_ram_info_ok (h : host) (st : state) :
  exists v st',
    get_ram_info h st = (Ok v, st')
    /\ (failed (virtual_memory h) -> v = PyDict []).
Proof.
  unfold get_ram_info. run.
  destruct (virtual_memory h); cbn; do 2 eexists;
    (split; [reflexivity|]); intro F; first [contradiction F | reflexivity].
Qed.

Lemma get_disk_info_ok (h : host) (st : state) :
  exists v st',
    get_disk_info h st = (Ok v, st')
    /\ (failed (disk_usage h) -> v = PyDict []).
Proof.
  unfold get_disk_info. run.
  destruct (disk_usage h); cbn; do 2 eexists;
    (split; [reflexivity|]); intro F; first [contradiction F | reflexivity].
Qed.

Lemma get_gpu_info_ok (h : host) (st : state) :
  exists g st',
    get_gpu_info h st = (Ok g, st')
    /\ (failed (gputil h) -> failed (torch h) -> failed (wmic_video h) ->
        g = []).
Proof.
  rewrite get_gpu_info_eq. cbv zeta.
  rewrite gputil_yield, torch_yield, wmic_yield.
  repeat match goal with
       | |- context [match ?x with _ => _ end] =>
           lazymatch x with
           | context [match _ with _ => _ end] => fail
           | _ => destruct x eqn:?
           end
       end.
  all: do 2 eexists; (split; [reflexivity|]);
       intros F1 F2 F3; cbn [failed] in *;
       first [contradiction F1 | contradiction F2 | contradiction F3
             | reflexivity].
Qed.

(** C2. [scan_system] returns normally on every machine, with a dict
    holding exactly the sections [os], [cpu], [ram], [storage] and [gpu],
    in this order; [gpu] is a list; a collector whose probe failed gives
    an empty dict (an empty list for [gpu], when its three strategies
    fail). *)
Theorem scan_system_total_shape (h : host) (st : state) :
  exists cpu ram storage gpu st',
    scan_system h st
    = (Ok (PyDict
             [("os", PyDict [("system", PyStr (platform_system h));
                             ("release", PyStr (platform_release h));
                             ("version", PyStr (platform_version h))]);
              ("cpu", cpu);
              ("ram", ram);
              ("storage", storage);
              ("gpu", PyList gpu)]), st')
    /\ (cpu_fails h -> cpu = PyDict [])
    /\ (failed (virtual_memory h) -> ram = PyDict [])
    /\ (failed (disk_usage h) -> storage = PyDict [])
    /\ (failed (gputil h) -> failed (torch h) -> failed (wmic_video h) ->
        gpu = []).
Proof.
  unfold scan_system. run.
  match goal with |- context [get_cpu_info h ?s] =>
    destruct (get_cpu_info_ok h s) as (cpu & s1 & E1 & F1) end.
  rewrite E1.
  destruct (get_ram_info_ok h s1) as (ram & s2 & E2 & F2). rewrite E2.
  destruct (get_disk_info_ok h s2) as (storage & s3 & E3 & F3). rewrite E3.
  destruct (get_gpu_info_ok h s3) as (gpu & s4 & E4 & F4). rewrite E4.
  exists cpu, ram, storage, gpu, s4. auto.
Qed.

Import Text.

(** *** More on the unit conversion *)

Lemma round_half_even_range (x : Q) :
  Qfloor x <= round_half_even x <= Qfloor x + 1.
Proof.
  unfold round_half_even.
  destruct (x - inject_Z (Qfloor x) ?= 1 # 2)%Q;
    [destruct (Z.even (Qfloor x))| |]; lia.
Qed.

Lemma round_half_even_mono (x y : Q) :
  (x <= y)%Q -> round_half_even x <= round_half_even y.
Proof.
  intro H.
  pose proof (Qfloor_resp_le _ _ H) as F.
  pose proof (round_half_even_range x) as Rx.
  pose proof (round_half_even_range y) as Ry.
  destruct (Z.eq_dec (Qfloor x) (Qfloor y)) as [E|N]; [|lia].
  clear Rx Ry F. unfold round_half_even. rewrite E.
  set (f := Qfloor y). set (q := inject_Z f).
  clearbody q. clearbody f. clear E.
  destruct (x - q ?= 1 # 2)%Q eqn:Cx;
    [apply Qeq_alt in Cx | apply Qlt_alt in Cx | apply Qgt_alt in Cx];
    destruct (y - q ?= 1 # 2)%Q eqn:Cy;
    [apply Qeq_alt in Cy | apply Qlt_alt in Cy | apply Qgt_alt in Cy
    | apply Qeq_alt in Cy | apply Qlt_alt in Cy | apply Qgt_alt in Cy
    | apply Qeq_alt in Cy | apply Qlt_alt in Cy | apply Qgt_alt in Cy];
    try (destruct (Z.even f); lia); try lia; exfalso; lra.
Qed.

Lemma gib_mono (m n : Z) : m <= n -> (gib m <= gib n)%Q.
Proof.
  intro H. unfold gib, round2. rewrite !Qred_correct.
  assert (K : round_half_even (inject_Z m / inject_Z (1024 ^ 3) * 100)
              <= round_half_even (inject_Z n / inject_Z (1024 ^ 3) * 100)).
  { apply round_half_even_mono. rewrite !gib_exact.
    unfold Qle. cbn. lia. }
  revert K. generalize (round_half_even (inject_Z m / inject_Z (1024 ^ 3) * 100)),
    (round_half_even (inject_Z n / inject_Z (1024 ^ 3) * 100)).
  intros a b K. unfold Qle. cbn. lia.
Qed.

Lemma gib_whole (k : Z) : (gib (k * 1024 ^ 3) == inject_Z k)%Q.
Proof.
  unfold gib, round2. rewrite Qred_correct.
  assert (E : (inject_Z (k * 1024 ^ 3) / inject_Z (1024 ^ 3) * 100
               == inject_Z (100 * k))%Q).
  { rewrite gib_exact. unfold Qeq, inject_Z. cbn [Qnum Qden].
    change (1024 ^ 3) with 1073741824. lia. }
  rewrite (round_half_even_compat _ _ E).
  unfold round_half_even. rewrite Qfloor_Z.
  assert (C : ((inject_Z (100 * k) - inject_Z (100 * k) ?= 1 # 2) = Lt)%Q).
  { generalize (inject_Z (100 * k)). intro q.
    apply (proj1 (Qlt_alt (q - q) (1 # 2))). lra. }
  rewrite C. unfold Qeq, inject_Z. cbn [Qnum Qden]. lia.
Qed.

(** X10. RAM and disk sizes that a float holds exactly (byte counts below
    [2^53]) are reported as the byte counts divided by 1024^3 and rounded
    to two decimals: each reported size is a multiple of 1/100 within
    1/200 of the quotient; a whole number of GiB is reported exactly, and
    more bytes never give fewer GB. *)
Theorem sizes_in_gib (h : host) (st : state) (mem disk : usage) :
  virtual_memory h = Got mem ->
  disk_usage h = Got disk ->
  Forall float_exact [total mem; unused mem; total disk; unused disk] ->
  fst (get_ram_info h st)
  = Ok (PyDict [("total_gb", PyFloat (gib (total mem)));
                ("available_gb", PyFloat (gib (unused mem)));
                ("percent_used", PyFloat (percent mem))])
  /\ fst (get_disk_info h st)
     = Ok (PyDict [("total_gb", PyFloat (gib (total disk)));
                   ("free_gb", PyFloat (gib (unused disk)));
                   ("percent_used", PyFloat (percent disk))])
  /\ (forall n,
        float_exact n ->
        (Qabs (gib n - inject_Z n / inject_Z (1024 ^ 3)) <= 1 # 200)%Q
        /\ exists k, (gib n == k # 100)%Q)
  /\ (forall k,
        float_exact (k * 1024 ^ 3) -> (gib (k * 1024 ^ 3) == inject_Z k)%Q)
  /\ (forall m n,
        float_exact m -> float_exact n -> m <= n -> (gib m <= gib n)%Q).
Proof.
  intros Hm Hd _.
  split; [unfold get_ram_info; run; now rewrite Hm|].
  split; [unfold get_disk_info; run; now rewrite Hd|].
  split; [|split; [intros k _; apply gib_whole
                  | intros m n _ _; apply gib_mono]].
  intros n _. split; [apply gib_close|].
  eexists. unfold gib, round2. apply Qred_correct.
Qed.

Lemma sizes_in_gib_witness :
  fst (get_ram_info Demo.hw blank)
  = Ok (PyDict [("total_gb", PyFloat 8);
                ("available_gb", PyFloat 4);
                ("percent_used", PyFloat 50)])
  /\ fst (get_disk_info Demo.hw blank)
     = Ok (PyDict [("total_gb", PyFloat 238);
                   ("free_gb", PyFloat (9313 # 100));
                   ("percent_used", PyFloat 61)]).
Proof.
  assert (B : Forall float_exact [8589934592; 4294967296;
                                  255550554112; 100000000000])
    by (repeat constructor).
  pose proof (sizes_in_gib Demo.hw blank _ _ eq_refl eq_refl B) as H.
  exact (conj (proj1 H) (proj1 (proj2 H))).
Defined.

(** *** More on the collectors *)

(** X11. The CPU section is all or nothing: empty when one of the psutil
    probes fails, and otherwise the six fields in order, with the counts
    and the usage as psutil gives them and a maximum frequency of 0 when
    [psutil.cpu_freq()] is [None]. *)
Theorem cpu_section_all_or_nothing (h : host) (st : state) :
  (cpu_fails h -> fst (get_cpu_info h st) = Ok (PyDict []))
  /\ (forall physical logical freq usage,
        cpu_count_physical h = Got physical ->
        cpu_count_logical h = Got logical ->
        cpu_freq h = Got freq ->
        cpu_percent h = Got usage ->
        exists brand,
          fst (get_cpu_info h st)
          = Ok (PyDict [("brand", PyStr brand);
                        ("architecture", PyStr (platform_machine h));
                        ("physical_cores", physical);
                        ("logical_cores", logical);
                        ("frequency_max",
                         match freq with
                         | Some m => PyFloat m
                         | None => PyInt 0
                         end);
                        ("usage_percent", PyFloat usage)])).
Proof.
  split.
  - destruct (get_cpu_info_ok h st) as (v & st' & E & F). rewrite E.
    intro C. cbn. now rewrite (F C).
  - intros physical logical freq usage Hp Hl Hf Hu.
    unfold get_cpu_info. run.
    destruct (String.eqb (platform_system h) "Windows");
      [destruct (wmic_cpu h) as [o|?];
         [destruct (stripped_lines o) as [|? [|? ?]]|]|];
      rewrite Hp, Hl, Hf, Hu; destruct freq; cbn; eexists; reflexivity.
Qed.

(** X12. The brand: off Windows the WMIC command is not run and the brand
    is [platform.processor()]; on Windows it is the second non-blank line
    of the WMIC output, and [platform.processor()] again when the command
    fails (with a warning) or prints fewer than two such lines. *)
Theorem cpu_brand_fallback (h : host) (st : state)
    (physical logical : pyval) (freq : option Q) (usage : Q) :
  cpu_count_physical h = Got physical ->
  cpu_count_logical h = Got logical ->
  cpu_freq h = Got freq ->
  cpu_percent h = Got usage ->
  exists brand rest,
    fst (get_cpu_info h st) = Ok (PyDict (("brand", PyStr brand) :: rest))
    /\ (on_windows h = false ->
        brand = platform_processor h
        /\ ~ In (Consulted Wmic_cpu) (new_events (get_cpu_info h) st))
    /\ (forall e, on_windows h = true -> wmic_cpu h = Failed e ->
        brand = platform_processor h
        /\ In (Logged WARNING
                 [Lit "Could not get detailed CPU name via WMIC: ";
                  Lit (msg e)])
              (new_events (get_cpu_info h) st))
    /\ (forall output, on_windows h = true -> wmic_cpu h = Got output ->
        brand = match stripped_lines output with
                | _ :: name :: _ => name
                | _ => platform_processor h
                end).
Proof.
  intros Hp Hl Hf Hu.
  unfold new_events, on_windows, get_cpu_info. run.
  destruct (String.eqb (platform_system h) "Windows");
    [destruct (wmic_cpu h) as [o|e0];
       [destruct (stripped_lines o) as [|? [|? ?]] eqn:L|]|];
    rewrite Hp, Hl, Hf, Hu; destruct freq; cbn [fst snd log];
    do 2 eexists; (split; [reflexivity|]);
    rewrite <- ?app_assoc; cbn [app];
    rewrite skipn_app, Nat.sub_diag, skipn_all; cbn [skipn app];
    (split; [intro W; first [discriminate W
                            | split; [reflexivity
                                     | cbn; intuition discriminate]]|]);
    (split; [intros e O2 W2; first [discriminate O2 | discriminate W2
                                  | inversion W2; subst; split;
                                    [reflexivity | right; left; reflexivity]]|]);
    intros output O3 W3; first [discriminate O3 | discriminate W3
                              | inversion W3; subst; now rewrite ?L].
Qed.

Lemma cpu_brand_fallback_witness :
  exists rest,
    fst (get_cpu_info Demo.hw blank)
    = Ok (PyDict (("brand",
                   PyStr "11th Gen Intel(R) Core(TM) i3-1115G4 @ 3.00GHz")
                  :: rest)).
Proof.
  destruct (cpu_brand_fallback Demo.hw blank _ _ _ _
              eq_refl eq_refl eq_refl eq_refl)
    as (brand & rest & E & _ & _ & W).
  exists rest. rewrite E.
  now rewrite (W _ eq_refl eq_refl).
Defined.

(** *** More on the GPU collector *)

Lemma Forall_entry_map {A} (tag : string) (f : A -> pyval) (xs : list A) :
  (forall x, entry_from tag (f x)) -> Forall (entry_from tag) (map f xs).
Proof. intro H. induction xs; cbn; constructor; auto. Qed.

Lemma gputil_entry_from (d : gputil_device) :
  entry_from "gputil" (gputil_entry d).
Proof. do 3 eexists. repeat split; reflexivity. Qed.

Lemma torch_entry_from (p : torch_props) : entry_from "torch" (torch_entry p).
Proof. do 3 eexists. repeat split; reflexivity. Qed.

Lemma wmic_entry_from (line : string) : entry_from "wmic" (wmic_entry line).
Proof. do 3 eexists. repeat split; reflexivity. Qed.

Lemma mps_entry_from : entry_from "torch-mps" mps_entry.
Proof. do 3 eexists. repeat split; reflexivity. Qed.

(** The result of [get_gpu_info] and the shape of its entries. *)
Lemma get_gpu_info_entries (h : host) (st : state) :
  exists g tag st',
    get_gpu_info h st = (Ok g, st')
    /\ In tag ["gputil"; "torch"; "torch-mps"; "wmic"]
    /\ Forall (entry_from tag) g.
Proof.
  rewrite get_gpu_info_eq. cbv zeta.
  rewrite gputil_yield, torch_yield, wmic_yield.
  destruct (gputil h) as [d|?].
  - destruct (map gputil_entry d) as [|e es] eqn:E1.
    + clear E1.
      destruct (torch h) as [t|?];
        [destruct (cuda_is_available t) as [[|]|?];
           [destruct (cuda_devices t) as [ds|?];
              [destruct (map torch_entry (answered ds)) as [|e2 es2] eqn:E2|]
           |destruct (has_mps t);
              [destruct (mps_is_available t) as [[|]|?]|]|]|].
      all: try (exists [mps_entry], "torch-mps"; eexists; cbn;
                split; [reflexivity|]; split; [auto|];
                repeat constructor; apply mps_entry_from).
      all: try (eexists; exists "torch"; eexists; split; [reflexivity|];
                split; [cbn; auto|]; rewrite <- E2;
                apply Forall_entry_map, torch_entry_from).
      all: destruct (on_windows h);
           [destruct (wmic_video h) as [o|?]|];
           eexists; exists "wmic"; eexists; (split; [reflexivity|]);
           (split; [cbn; auto|]);
           first [apply Forall_entry_map, wmic_entry_from | constructor].
    + eexists; exists "gputil"; eexists. split; [reflexivity|].
      split; [cbn; auto|]. rewrite <- E1.
      apply Forall_entry_map, gputil_entry_from.
  - destruct (torch h) as [t|?];
      [destruct (cuda_is_available t) as [[|]|?];
         [destruct (cuda_devices t) as [ds|?];
            [destruct (map torch_entry (answered ds)) as [|e2 es2] eqn:E2|]
         |destruct (has_mps t);
            [destruct (mps_is_available t) as [[|]|?]|]|]|].
    all: try (exists [mps_entry], "torch-mps"; eexists; cbn;
              split; [reflexivity|]; split; [auto|];
              repeat constructor; apply mps_entry_from).
    all: try (eexists; exists "torch"; eexists; split; [reflexivity|];
              split; [cbn; auto|]; rewrite <- E2;
              apply Forall_entry_map, torch_entry_from).
    all: destruct (on_windows h);
         [destruct (wmic_video h) as [o|?]|];
         eexists; exists "wmic"; eexists; (split; [reflexivity|]);
         (split; [cbn; auto|]);
         first [apply Forall_entry_map, wmic_entry_from | constructor].
Qed.


(** X13. Whatever the machine, [get_gpu_info] returns a list whose
    entries all carry the same [source] tag, one of the four the code
    writes, and all have a string under [name] and a value under
    [vram_total_gb]. *)
Theorem gpu_entries_well_formed (h : host) (st : state) :
  exists g tag,
    fst (get_gpu_info h st) = Ok g
    /\ In tag ["gputil"; "torch"; "torch-mps"; "wmic"]
    /\ Forall (entry_from tag) g.
Proof.
  destruct (get_gpu_info_entries h st) as (g & tag & st' & E & T & F).
  exists g, tag. rewrite E. auto.
Qed.

(** *** More on the WMIC table *)

(** X14. A line of the WMIC table in two columns, the first without a
    double space and not ending with a space, the second without a double
    space, the first being in range (not an integer, or one that a float
    holds exactly): the entry takes its name from the second column,
    stripped, and its VRAM from the first column read as an integer, 0
    when it is not one. *)
Theorem wmic_two_columns (ram name : string) :
  Text.contains "  " (ram ++ " ") = false ->
  Text.contains "  " name = false ->
  column_in_range ram ->
  wmic_entry (ram ++ "  " ++ name)
  = PyDict [("name", PyStr (Text.strip name));
            ("vram_total_gb",
             wmic_vram_gb match Text.py_int (Text.strip ram) with
                          | Some n => n
                          | None => 0
                          end);
            ("source", PyStr "wmic")].
Proof.
  intros Hr Hn _. unfold wmic_entry, Text.split.
  pose proof (split_go_first " " " " ram name [] Hr) as S.
  cbv zeta in S. change (" " ++ " ") with "  " in S. rewrite S.
  rewrite (split_go_none _ _ _ Hn). reflexivity.
Qed.

Lemma wmic_two_columns_witness :
  wmic_entry "1073741824   Intel(R) UHD Graphics"
  = PyDict [("name", PyStr "Intel(R) UHD Graphics");
            ("vram_total_gb", PyFloat 1);
            ("source", PyStr "wmic")].
Proof.
  exact (wmic_two_columns "1073741824" " Intel(R) UHD Graphics"
           eq_refl eq_refl
           (conj (proj1 (Nat.leb_le 10 4300) eq_refl) eq_refl)).
Defined.

(** X15. A line of the WMIC table without a double space is one column:
    it is the name, and it is also what the VRAM is read from, so a line
    that holds a name only has no VRAM and a line that holds a number
    only (one that a float holds exactly) is named by that number. *)
Theorem wmic_one_column (line : string) :
  Text.contains "  " line = false ->
  column_in_range line ->
  wmic_entry line
  = PyDict [("name", PyStr (Text.strip line));
            ("vram_total_gb",
             wmic_vram_gb match Text.py_int (Text.strip line) with
                          | Some n => n
                          | None => 0
                          end);
            ("source", PyStr "wmic")].
Proof.
  intros H _. unfold wmic_entry. now rewrite (split_none _ _ H).
Qed.

Lemma wmic_one_column_witness :
  wmic_entry "Microsoft Basic Display Adapter"
  = PyDict [("name", PyStr "Microsoft Basic Display Adapter");
            ("vram_total_gb", PyInt 0);
            ("source", PyStr "wmic")]
  /\ wmic_entry "2147483648"
     = PyDict [("name", PyStr "2147483648");
               ("vram_total_gb", PyFloat 2);
               ("source", PyStr "wmic")].
Proof.
  exact (conj (wmic_one_column "Microsoft Basic Display Adapter" eq_refl
                 (conj (proj1 (Nat.leb_le 31 4300) eq_refl) I))
              (wmic_one_column "2147483648" eq_refl
                 (conj (proj1 (Nat.leb_le 10 4300) eq_refl) eq_refl))).
Defined.

(** *** The sections of a snapshot *)

(** Whether [failed] holds can be told. *)
Lemma failed_dec {A} (a : answer A) : failed a \/ ~ failed a.
Proof. destruct a; cbn; auto. Qed.

Lemma cpu_fails_dec (h : host) : cpu_fails h \/ ~ cpu_fails h.
Proof.
  unfold cpu_fails.
  destruct (failed_dec (cpu_count_physical h)), (failed_dec (cpu_count_logical h)),
    (failed_dec (cpu_freq h)), (failed_dec (cpu_percent h)); tauto.
Qed.

(** The CPU section is empty, or has a brand and a thread count. *)
Lemma get_cpu_info_cases (h : host) (st : state) :
  exists cpu st',
    get_cpu_info h st = (Ok (PyDict cpu), st')
    /\ (cpu_fails h /\ cpu = []
        \/ ~ cpu_fails h
           /\ exists brand logical,
                lookup "brand" cpu = Some brand
                /\ lookup "logical_cores" cpu = Some logical).
Proof.
  unfold get_cpu_info, cpu_fails. run.
  destruct (String.eqb (platform_system h) "Windows");
    [destruct (wmic_cpu h) as [o|?];
       [destruct (stripped_lines o) as [|? [|? ?]]|]|];
    destruct (cpu_count_physical h), (cpu_count_logical h),
      (cpu_freq h) as [[?|]|?], (cpu_percent h);
    cbn; do 2 eexists; (split; [reflexivity|]);
    first [ left; split; [tauto | reflexivity]
          | right; split; [tauto | do 2 eexists; split; reflexivity] ].
Qed.

(** The RAM section is empty, or has a total. *)
Lemma get_ram_info_cases (h : host) (st : state) :
  exists ram st',
    get_ram_info h st = (Ok (PyDict ram), st')
    /\ (failed (virtual_memory h) /\ ram = []
        \/ ~ failed (virtual_memory h)
           /\ exists total_gb, lookup "total_gb" ram = Some total_gb).
Proof.
  unfold get_ram_info. run.
  destruct (virtual_memory h); cbn; do 2 eexists;
    (split; [reflexivity|]);
    [right; split; [tauto | eexists; reflexivity]
    | left; split; [exact I | reflexivity]].
Qed.

(** The snapshot with what its consumers rely on. *)
Lemma scan_system_sections (h : host) (st : state) :
  exists os cpu ram storage g tag st',
    scan_system h st
    = (Ok (PyDict [("os", os); ("cpu", PyDict cpu); ("ram", PyDict ram);
                   ("storage", storage); ("gpu", PyList g)]), st')
    /\ (cpu_fails h /\ cpu = []
        \/ ~ cpu_fails h
           /\ exists brand logical,
                lookup "brand" cpu = Some brand
                /\ lookup "logical_cores" cpu = Some logical)
    /\ (failed (virtual_memory h) /\ ram = []
        \/ ~ failed (virtual_memory h)
           /\ exists total_gb, lookup "total_gb" ram = Some total_gb)
    /\ Forall (entry_from tag) g.
Proof.
  unfold scan_system. run.
  match goal with |- context [get_cpu_info h ?s] =>
    destruct (get_cpu_info_cases h s) as (cpu & s1 & E1 & C1) end.
  rewrite E1.
  destruct (get_ram_info_cases h s1) as (ram & s2 & E2 & C2). rewrite E2.
  destruct (get_disk_info_ok h s2) as (storage & s3 & E3 & _). rewrite E3.
  destruct (get_gpu_info_entries h s3) as (g & tag & s4 & E4 & _ & F4).
  rewrite E4. eexists. exists cpu, ram, storage, g, tag, s4.
  split; [reflexivity|]. split; [exact C1|]. split; [exact C2 | exact F4].
Qed.

(** *** A scan starts afresh *)

Lemma uniform_fst {A} P (m : M A) (st : state) :
  uniform P m -> fst (m st) = fst (m blank).
Proof. intro U. now destruct (uniform_frame P m st U) as [-> _]. Qed.

Lemma get_cpu_info_uniform (h : host) :
  uniform (fun _ => True) (get_cpu_info h).
Proof. unfold get_cpu_info, logger. uniformity; exact I. Qed.

Lemma get_ram_info_uniform (h : host) :
  uniform (fun _ => True) (get_ram_info h).
Proof. unfold get_ram_info, logger. uniformity; exact I. Qed.

Lemma get_disk_info_uniform (h : host) :
  uniform (fun _ => True) (get_disk_info h).
Proof. unfold get_disk_info, logger. uniformity; exact I. Qed.

(** X21. A scan starts afresh: the snapshot depends on the machine only,
    not on the state the scan starts in; in particular the GPU list of a
    second scan in the same process holds no entry of the first. *)
Theorem scan_system_is_fresh (h : host) (st : state) :
  fst (scan_system h st) = fst (scan_system h blank)
  /\ fst (scan_system h (snd (scan_system h st))) = fst (scan_system h st).
Proof.
  assert (F : forall s, fst (scan_system h s) = fst (scan_system h blank)).
  { intro s. unfold scan_system. run.
    match goal with |- context [get_cpu_info h ?s0] =>
      destruct (uniform_frame _ _ s0 (get_cpu_info_uniform h)) as [-> _]
    end.
    match goal with |- _ = fst (let (_, _) := get_cpu_info h ?s0 in _) =>
      destruct (uniform_frame _ _ s0 (get_cpu_info_uniform h)) as [E0 _];
      rewrite E0 at 1; clear E0
    end.
    destruct (fst (get_cpu_info h blank)) as [cpu|e|c]; try reflexivity.
    match goal with |- context [get_ram_info h ?s0] =>
      destruct (uniform_frame _ _ s0 (get_ram_info_uniform h)) as [-> _]
    end.
    match goal with |- _ = fst (let (_, _) := get_ram_info h ?s0 in _) =>
      destruct (uniform_frame _ _ s0 (get_ram_info_uniform h)) as [E0 _];
      rewrite E0 at 1; clear E0
    end.
    destruct (fst (get_ram_info h blank)) as [ram|e|c]; try reflexivity.
    match goal with |- context [get_disk_info h ?s0] =>
      destruct (uniform_frame _ _ s0 (get_disk_info_uniform h)) as [-> _]
    end.
    match goal with |- _ = fst (let (_, _) := get_disk_info h ?s0 in _) =>
      destruct (uniform_frame _ _ s0 (get_disk_info_uniform h)) as [E0 _];
      rewrite E0 at 1; clear E0
    end.
    destruct (fst (get_disk_info h blank)) as [disk|e|c]; try reflexivity.
    rewrite !get_gpu_info_eq. cbv zeta.
    destruct (yield (gputil_strategy h)), (yield (torch_strategy h)),
      (on_windows h); reflexivity. }
  split; [apply F|]. now rewrite !F.
Qed.

End ScannerFacts.

(** ** cli.py *)

Section CliFacts.
Import Py Sender DeviceId Scanner Cli.

(** *** What a run logs *)

Section Logs.
Context (P : event -> Prop).

Lemma logs_silent {A} (m : M A) :
  (forall st, log (snd (m st)) = log st) -> logs P m.
Proof.
  intros H st. exists []. rewrite H, app_nil_r. now split.
Qed.

Lemma logs_ret {A} (a : A) : logs P (ret a).
Proof. now apply logs_silent. Qed.

Lemma logs_raise {A} (e : exc) : logs P (@raise A e).
Proof. now apply logs_silent. Qed.

Lemma logs_sys_exit {A} (c : Z) : logs P (@sys_exit A c).
Proof. now apply logs_silent. Qed.

Lemma logs_lift {A} (a : answer A) : logs P (lift a).
Proof. apply logs_silent. now destruct a. Qed.

Lemma logs_get_store : logs P get_store.
Proof. now apply logs_silent. Qed.

Lemma logs_put_store (c : config_store) : logs P (put_store c).
Proof. now apply logs_silent. Qed.

Lemma logs_get_gpus : logs P get_gpus.
Proof. now apply logs_silent. Qed.

Lemma logs_set_gpus (g : list pyval) : logs P (set_gpus g).
Proof. now apply logs_silent. Qed.

Lemma logs_append_gpu (entry : pyval) : logs P (append_gpu entry).
Proof. now apply logs_silent. Qed.

Lemma logs_emit (ev : event) : P ev -> logs P (emit ev).
Proof. intros H st. exists [ev]. split; [reflexivity | now repeat constructor]. Qed.

Lemma logs_consult {A} (f : facility) (a : answer A) :
  P (Consulted f) -> logs P (consult f a).
Proof.
  intros H st. exists [Consulted f].
  split; [now destruct a | now repeat constructor].
Qed.

Lemma logs_bind {A B} (m : M A) (k : A -> M B) :
  logs P m -> (forall a, logs P (k a)) -> logs P (bind m k).
Proof.
  intros Hm Hk st. unfold bind.
  destruct (Hm st) as (l & E & F). destruct (m st) as [[a|e|c] st'];
    cbn [snd] in *; try (now exists l).
  destruct (Hk a st') as (l' & E' & F').
  exists (l ++ l')%list. rewrite E', E, app_assoc.
  split; [reflexivity | now apply Forall_app].
Qed.

Lemma logs_try_except {A} (m : M A) (h : exc -> M A) :
  logs P m -> (forall e, logs P (h e)) -> logs P (try_except m h).
Proof.
  intros Hm Hh st. unfold try_except.
  destruct (Hm st) as (l & E & F). destruct (m st) as [[a|e|c] st'];
    cbn [snd] in *; try (now exists l).
  destruct (Hh e st') as (l' & E' & F').
  exists (l ++ l')%list. rewrite E', E, app_assoc.
  split; [reflexivity | now apply Forall_app].
Qed.

Lemma logs_try_pass (m : M unit) : logs P m -> logs P (try_pass m).
Proof.
  intros Hm st. unfold try_pass.
  destruct (Hm st) as (l & E & F). destruct (m st) as [[a|e|c] st'];
    now exists l.
Qed.

Lemma logs_for_each {A} (xs : list A) (body : A -> M unit) :
  (forall x, logs P (body x)) -> logs P (for_each xs body).
Proof.
  intro Hb. induction xs as [|x xs IH]; cbn [for_each].
  - apply logs_ret.
  - apply logs_bind; [apply Hb | intro; exact IH].
Qed.

End Logs.

(** Breaks a goal [logs P m] along the structure of [m]; what is left are
    the side conditions [P ev] on the events [m] can log. *)
Ltac logging :=
  repeat first
    [ apply logs_bind; [|intro]
    | apply logs_try_except; [|intro]
    | apply logs_try_pass
    | apply logs_for_each; intro
    | apply logs_ret | apply logs_raise | apply logs_sys_exit
    | apply logs_lift | apply logs_get_store | apply logs_put_store
    | apply logs_get_gpus | apply logs_set_gpus | apply logs_append_gpu
    | apply logs_consult | apply logs_emit
    | match goal with
      | |- logs _ (if ?b then _ else _) => destruct b
      | |- logs _ (match ?x with _ => _ end) => destruct x
      | |- logs _ (let (_, _) := ?x in _) => destruct x
      end ].

Lemma run_scan_logs (m : machine) (backend_url : string) :
  logs stamped_now (run_scan m backend_url).
Proof.
  unfold run_scan, identify_and_scan, report, get_or_create_device_id,
    _ensure_dir, stored_id, load_device_file, dump_device_file, str_in,
    getitem, elements, dict_get, scan_system, get_cpu_info, get_ram_info,
    get_disk_info, get_gpu_info, gputil_strategy, torch_strategy,
    wmic_strategy, send_data, post, raise_for_status, on_failure, print,
    logger.
  logging; try exact I.
  all: cbn; eexists; split; reflexivity.
Qed.

(** *** The orchestrator *)

(** Membership in a log built by successive appends. *)
Ltac in_log :=
  repeat first
    [ apply in_or_app; right; left; reflexivity
    | apply in_or_app; left ].

(** Once identity and scan are through, the run is the report. *)
Lemma run_scan_report (m : machine) (backend_url : string) (st : state)
    (device_uuid system_metrics : pyval) :
  fst (identify_and_scan m st) = Ok (device_uuid, system_metrics) ->
  run_scan m backend_url st
  = report m backend_url device_uuid system_metrics
      (snd (identify_and_scan m st)).
Proof.
  intro H. unfold run_scan, bind.
  destruct (identify_and_scan m st) as [r st1]. cbn [fst snd] in *.
  now subst r.
Qed.

Lemma success_status (s : Z) :
  200 <= s < 300 ->
  (400 <=? s) && (s <? 500) = false /\ (500 <=? s) && (s <? 600) = false.
Proof.
  intro H. split; apply andb_false_iff; left; apply Z.leb_gt; lia.
Qed.

(** C9. The [timestamp] of the payload is the literal "Now" whatever the
    device id and the metrics; every request a run makes carries it; and a
    run that gets through identity and scan does make the request, with
    that payload. *)
Theorem timestamp_is_the_literal_Now (m : machine) (backend_url : string)
    (st : state) :
  (forall d s, exists kvs,
      payload d s = PyDict kvs /\ lookup "timestamp" kvs = Some (PyStr "Now"))
  /\ (exists l,
        log (snd (run_scan m backend_url st)) = (log st ++ l)%list
        /\ Forall stamped_now l)
  /\ (forall d s,
        fst (identify_and_scan m st) = Ok (d, s) ->
        exists before after,
          log (snd (run_scan m backend_url st))
          = (before
             ++ Posted (target_url backend_url) (payload d s) headers 10
             :: after)%list).
Proof.
  split; [|split].
  - intros d s. eexists. split; reflexivity.
  - apply run_scan_logs.
  - intros d s H. rewrite (run_scan_report _ _ _ _ _ H).
    unfold report. run.
    match goal with |- context [send_data ?n ?b ?u ?s0] =>
      destruct (send_data_posts n b u s0) as [rest E];
      remember (log s0) as before eqn:B in E; clear B;
      destruct (send_data n b u s0) as [[[[|] res]|e|c] st2]
    end; cbn [fst snd store gpus log] in *; rewrite E;
      rewrite <- ?app_assoc; cbn [app];
      exists before; eexists; reflexivity.
Qed.

(** [scan_system] gives [{}] for the CPU when a probe fails, and the
    summary of [run_scan] then stops on [system_metrics['cpu']['brand']]:
    no request is made. *)
Example summary_needs_the_cpu :
  let m := mkMachine Demo.ident
             (Demo.laptop "Linux"
                (Failed (mkExc (OtherError "PermissionError") "denied"))
                (Got []) (Failed (Demo.no_module "torch"))
                (Failed (Demo.no_module "wmic")))
             Demo.accepting in
  fst (run_scan m "http://host:3001" blank) = Raise (key_error "brand")
  /\ Forall no_request (log (snd (run_scan m "http://host:3001" blank))).
Proof. split; [reflexivity | vm_compute; repeat constructor]. Qed.

(** *** The request of a run *)

Lemma new_events_spec {A} P (m : M A) (st : state) :
  logs P m ->
  log (snd (m st)) = (log st ++ new_events m st)%list
  /\ Forall P (new_events m st).
Proof.
  intro H. destruct (H st) as (l & E & F). unfold new_events.
  rewrite E, skipn_app, Nat.sub_diag, skipn_all. cbn. now split.
Qed.

(** Identity and scan make no request. *)
Lemma identify_and_scan_quiet (m : machine) :
  logs no_request (identify_and_scan m).
Proof.
  unfold identify_and_scan, get_or_create_device_id,
    _ensure_dir, stored_id, load_device_file, dump_device_file, str_in,
    getitem, elements, dict_get, scan_system, get_cpu_info, get_ram_info,
    get_disk_info, get_gpu_info, gputil_strategy, torch_strategy,
    wmic_strategy, print, logger.
  logging; exact I.
Qed.

(** The report makes one request, to [target_url backend_url] with the
    payload. *)
Lemma report_log (m : machine) (backend_url : string)
    (d s : pyval) (st : state) :
  exists before after,
    log (snd (report m backend_url d s st))
    = (log st ++ before
       ++ Posted (target_url backend_url) (payload d s) headers 10
       :: after)%list
    /\ Forall no_request before /\ Forall no_request after.
Proof.
  unfold report, send_data, post, raise_for_status, on_failure. run.
  exists [Printed [Lit rule];
          Printed [Lit "NOTICE: Only hardware capability metrics (CPU/RAM/GPU/Disk Space)"];
          Printed [Lit "are being collected to determine LLM compatibility."];
          Printed [Lit "NO personal files, browsing history, or private data is accessed."];
          Printed [Lit rule];
          Printed [Lit "Sending report to backend at "; Lit backend_url; Lit "..."]].
  destruct (net m (target_url backend_url) (payload d s)) as [r|e];
    [destruct ((400 <=? status_code r) && (status_code r <? 500));
       [|destruct ((500 <=? status_code r) && (status_code r <? 600));
           [|destruct (json r) as [b|e]]]|];
    cbn;
    try (destruct (is_Timeout e);
         [|destruct (is_ConnectionError e); [|destruct (is_HTTPError e)]];
         cbn);
    eexists; (split; [rewrite <- ?app_assoc; cbn [app]; reflexivity|]);
    split; repeat constructor.
Qed.

(** A request among the events of a run is the one of the report: identity
    and scan went through, and it carries the payload to the target URL. *)
Lemma the_request (m : machine) (backend_url : string) (st : state)
    (u : string) (b : pyval) (hd : list (string * string)) (t : Z) :
  In (Posted u b hd t) (new_events (run_scan m backend_url) st) ->
  exists d s,
    fst (identify_and_scan m st) = Ok (d, s)
    /\ u = target_url backend_url /\ b = payload d s.
Proof.
  intro H.
  destruct (new_events_spec _ _ st (identify_and_scan_quiet m)) as [E F].
  unfold new_events, run_scan, bind in H.
  destruct (identify_and_scan m st) as [[[d s]|e|c] st1] eqn:I;
    cbn [fst snd] in *.
  - exists d, s. split; [reflexivity|].
    destruct (report_log m backend_url d s st1) as (bf & af & L & Fb & Fa).
    rewrite L, E, <- app_assoc, skipn_app, Nat.sub_diag, skipn_all in H.
    cbn [skipn app] in H.
    rewrite !in_app_iff in H. destruct H as [H|[H|H]].
    + rewrite Forall_forall in F. now apply F in H.
    + rewrite Forall_forall in Fb. now apply Fb in H.
    + destruct H as [H|H]; [now inversion H|].
      rewrite Forall_forall in Fa. now apply Fa in H.
  - rewrite E, skipn_app, Nat.sub_diag, skipn_all in H. cbn in H.
    rewrite Forall_forall in F. now apply F in H.
  - rewrite E, skipn_app, Nat.sub_diag, skipn_all in H. cbn in H.
    rewrite Forall_forall in F. now apply F in H.
Qed.

(** A run that got through identity and scan, with an endpoint that
    answers 2xx and a JSON body. *)
Lemma success_after_scan (m : machine) (backend_url : string)
    (st : state) (device_uuid system_metrics : pyval) (r : response)
    (body : pyval) :
  fst (identify_and_scan m st) = Ok (device_uuid, system_metrics) ->
  net m (target_url backend_url) (payload device_uuid system_metrics)
  = Got r ->
  200 <= status_code r < 300 ->
  json r = Got body ->
  (forall st', fst (send_data (net m) (payload device_uuid system_metrics)
                      backend_url st') = Ok (true, body))
  /\ fst (run_scan m backend_url st) = Ok tt
  /\ exit_status (fst (run_scan m backend_url st)) = 0
  /\ (forall help,
        exit_status (fst (main m help (Scan (Some backend_url)) st)) = 0)
  /\ In (Printed [Lit "   ";
                  Lit (hd "" (Text.split "/api" backend_url));
                  Lit "/?deviceId="; Fmt device_uuid])
        (log (snd (run_scan m backend_url st))).
Proof.
  intros Hscan Hnet Hs Hj.
  destruct (success_status _ Hs) as [S4 S5].
  assert (Hsend : forall st',
             send_data (net m) (payload device_uuid system_metrics)
               backend_url st'
             = (Ok (true, body),
                mkState (store st') (gpus st')
                  (log st'
                   ++ [Posted (target_url backend_url)
                         (payload device_uuid system_metrics) headers 10;
                       Logged INFO
                         [Lit "Successfully sent hardware report. Status code: ";
                          Fmt (PyInt (status_code r))]]))).
  { intro st'. unfold send_data, post, raise_for_status. run.
    rewrite Hnet. cbn. rewrite S4, S5. cbn. rewrite Hj. cbn.
    now rewrite <- app_assoc. }
  assert (Hrun : fst (run_scan m backend_url st) = Ok tt
                 /\ In (Printed [Lit "   ";
                          Lit (hd "" (Text.split "/api" backend_url));
                          Lit "/?deviceId="; Fmt device_uuid])
                      (log (snd (run_scan m backend_url st)))).
  { rewrite (run_scan_report _ _ _ _ _ Hscan).
    unfold report. run. rewrite Hsend. cbn [fst snd store gpus log].
    split; [reflexivity|]. unfold final_link. in_log. }
  destruct Hrun as [R L].
  split; [intro st'; now rewrite Hsend|].
  split; [exact R|]. split; [now rewrite R|].
  split; [intro help; cbn [main]; now rewrite R | exact L].
Qed.

(** A run that got through identity and scan, with an endpoint that
    cannot be reached. *)
Lemma unreachable_after_scan (m : machine) (backend_url : string)
    (st : state) (device_uuid system_metrics : pyval) (e : exc) :
  fst (identify_and_scan m st) = Ok (device_uuid, system_metrics) ->
  net m (target_url backend_url) (payload device_uuid system_metrics)
  = Failed e ->
  is_ConnectionError e = true ->
  is_Timeout e = false ->
  (forall st', fst (send_data (net m) (payload device_uuid system_metrics)
                      backend_url st')
               = Ok (false, PyStr "Connection Error"))
  /\ fst (run_scan m backend_url st) = Exit 1
  /\ exit_status (fst (run_scan m backend_url st)) = 1
  /\ (forall help,
        exit_status (fst (main m help (Scan (Some backend_url)) st)) = 1).
Proof.
  intros Hscan Hnet Hc Ht.
  assert (Hsend : forall st',
             send_data (net m) (payload device_uuid system_metrics)
               backend_url st'
             = (Ok (false, PyStr "Connection Error"),
                mkState (store st') (gpus st')
                  (log st'
                   ++ [Posted (target_url backend_url)
                         (payload device_uuid system_metrics) headers 10;
                       Logged ERROR
                         [Lit "Connection failed. Is the backend reachable?"]]))).
  { intro st'. unfold send_data, post, on_failure. run.
    rewrite Hnet. cbn. rewrite Ht, Hc. cbn. now rewrite <- app_assoc. }
  assert (R : fst (run_scan m backend_url st) = Exit 1).
  { rewrite (run_scan_report _ _ _ _ _ Hscan).
    unfold report. run. now rewrite Hsend. }
  split; [intro st'; now rewrite Hsend|].
  split; [exact R|]. split; [now rewrite R|].
  intro help; cbn [main]; now rewrite R.
Qed.


(** C8. When the endpoint answers the request of a run with a 2xx status
    and a JSON body, [send_data] returns [(True, body)]; the run then
    returns normally, so the exit status is 0, and one of the lines it
    prints is the dashboard link, which ends with [/?deviceId=] followed
    by the device id of the request. *)
Theorem success_prints_dashboard_link (m : machine) (backend_url : string)
    (st : state) (url : string) (report_data : pyval)
    (hd : list (string * string)) (t : Z) (r : response) (body : pyval) :
  In (Posted url report_data hd t) (new_events (run_scan m backend_url) st) ->
  net m url report_data = Got r ->
  200 <= status_code r < 300 ->
  json r = Got body ->
  (forall st', fst (send_data (net m) report_data backend_url st')
               = Ok (true, body))
  /\ fst (run_scan m backend_url st) = Ok tt
  /\ exit_status (fst (run_scan m backend_url st)) = 0
  /\ (forall help,
        exit_status (fst (main m help (Scan (Some backend_url)) st)) = 0)
  /\ exists device_uuid system_metrics,
       report_data = payload device_uuid system_metrics
       /\ In (Printed [Lit "   ";
                       Lit (List.hd "" (Text.split "/api" backend_url));
                       Lit "/?deviceId="; Fmt device_uuid])
             (log (snd (run_scan m backend_url st))).
Proof.
  intros Hreq Hnet Hs Hj.
  destruct (the_request _ _ _ _ _ _ _ Hreq) as (d & s & Hscan & -> & ->).
  destruct (success_after_scan m backend_url st d s r body Hscan Hnet Hs Hj)
    as (S & R & X & Mn & L).
  repeat split; try assumption. now exists d, s.
Qed.

Lemma success_prints_dashboard_link_witness :
  fst (run_scan (Demo.machine Demo.accepting) "http://host:3001" blank)
  = Ok tt
  /\ exit_status
       (fst (run_scan (Demo.machine Demo.accepting) "http://host:3001" blank))
     = 0.
Proof.
  refine (let H := success_prints_dashboard_link
                     (Demo.machine Demo.accepting) "http://host:3001" blank
                     _ _ _ _ Demo.created (PyDict [("status", PyStr "ok")])
                     _ _ _ _ in
          conj (proj1 (proj2 H)) (proj1 (proj2 (proj2 H)))).
  - vm_compute. repeat (first [left; reflexivity | right]).
  - reflexivity.
  - cbn. lia.
  - reflexivity.
Defined.

(** C4, as the code has it.  When the request of a run fails with a
    [ConnectionError] that is not a timeout, [send_data] does not raise: it
    returns [(False, "Connection Error")]; the run then ends in
    [sys.exit(1)]. *)
Theorem unreachable_exits_1 (m : machine) (backend_url : string)
    (st : state) (url : string) (report_data : pyval)
    (hd : list (string * string)) (t : Z) (e : exc) :
  In (Posted url report_data hd t) (new_events (run_scan m backend_url) st) ->
  net m url report_data = Failed e ->
  is_ConnectionError e = true ->
  is_Timeout e = false ->
  (forall st', fst (send_data (net m) report_data backend_url st')
               = Ok (false, PyStr "Connection Error"))
  /\ fst (run_scan m backend_url st) = Exit 1
  /\ exit_status (fst (run_scan m backend_url st)) = 1
  /\ (forall help,
        exit_status (fst (main m help (Scan (Some backend_url)) st)) = 1).
Proof.
  intros Hreq Hnet Hc Ht.
  destruct (the_request _ _ _ _ _ _ _ Hreq) as (d & s & Hscan & -> & ->).
  exact (unreachable_after_scan m backend_url st d s e Hscan Hnet Hc Ht).
Qed.

Lemma unreachable_exits_1_witness :
  fst (run_scan (Demo.machine Demo.unreachable) "http://host:3001" blank)
  = Exit 1
  /\ exit_status (fst (run_scan (Demo.machine Demo.unreachable)
                         "http://host:3001" blank)) = 1.
Proof.
  refine (let H := unreachable_exits_1
                     (Demo.machine Demo.unreachable) "http://host:3001" blank
                     _ _ _ _ Demo.refused _ _ eq_refl eq_refl in
          conj (proj1 (proj2 H)) (proj1 (proj2 (proj2 H)))).
  - vm_compute. repeat (first [left; reflexivity | right]).
  - reflexivity.
Defined.

(** C4, as stated, fails: on a refused connection the description
    [send_data] returns is "Connection Error", with a space, not
    "ConnectionError". *)
Lemma connection_error_text :
  is_ConnectionError Demo.refused = true
  /\ fst (send_data Demo.unreachable PyNone "http://host:3001" blank)
     = Ok (false, PyStr "Connection Error")
  /\ fst (send_data Demo.unreachable PyNone "http://host:3001" blank)
     <> Ok (false, PyStr "ConnectionError").
Proof.
  split; [reflexivity|]. split; [reflexivity|].
  vm_compute. discriminate.
Qed.

(** A connection attempt that times out is a [ConnectionError] too, but
    the first [except] clause takes it. *)
Example connect_timeout_is_a_timeout :
  let e := mkExc ConnectTimeout "timed out" in
  is_ConnectionError e = true
  /\ fst (send_data (fun _ _ => Failed e) PyNone "http://host:3001" blank)
     = Ok (false, PyStr "Timeout").
Proof. split; reflexivity. Qed.


Import Text.

(** *** Identity, scan and summary, step by step *)

(** [identify_and_scan] is the identity, the scan and then [summary]. *)
Lemma identify_and_scan_steps (m : machine) :
  identify_and_scan m
  = (device_uuid <- get_or_create_device_id (ident m) ;;
     print [Lit "✅ Device Identified: "; Fmt device_uuid] ;;;
     print [Lit "Running hardware diagnostics (this may take a few seconds)..."] ;;;
     system_metrics <- scan_system (hw m) ;;
     summary device_uuid system_metrics)%py.
Proof. reflexivity. Qed.

(** One line of the GPU summary. *)
Lemma gpu_line_ok (tag : string) (g : pyval) (st : state) :
  entry_from tag g ->
  exists st', gpu_line g st = (Ok tt, st') /\ store st' = store st.
Proof.
  intros (kvs & name & vram & -> & Hn & Hv & _).
  unfold gpu_line, dict_get, getitem. run. rewrite Hv, Hn. run.
  eexists. split; reflexivity.
Qed.

(** The loop over the GPU entries goes through. *)
Lemma gpu_loop_ok (tag : string) (gs : list pyval) (st : state) :
  Forall (entry_from tag) gs ->
  exists st', for_each gs gpu_line st = (Ok tt, st') /\ store st' = store st.
Proof.
  intro F. revert st. induction F as [|g gs Hg _ IH]; intro st.
  - exists st. now cbn.
  - cbn [for_each]. unfold bind at 1.
    destruct (gpu_line_ok tag g st Hg) as (s1 & E1 & S1). rewrite E1.
    destruct (IH s1) as (st' & E & S). rewrite E.
    exists st'. split; [reflexivity | congruence].
Qed.

(** What the summary does with a snapshot: it needs the brand, the thread
    count and the RAM total, and nothing else. *)
Lemma summary_outcome (d os storage : pyval) (cpu ram : list (string * pyval))
    (g : list pyval) (tag : string) (st : state) :
  Forall (entry_from tag) g ->
  let s := PyDict [("os", os); ("cpu", PyDict cpu); ("ram", PyDict ram);
                   ("storage", storage); ("gpu", PyList g)] in
  fst (summary d s st)
  = match lookup "brand" cpu, lookup "logical_cores" cpu,
          lookup "total_gb" ram with
    | None, _, _ => Raise (key_error "brand")
    | Some _, None, _ => Raise (key_error "logical_cores")
    | Some _, Some _, None => Raise (key_error "total_gb")
    | Some _, Some _, Some _ => Ok (d, s)
    end
  /\ store (snd (summary d s st)) = store st.
Proof.
  intros F s. unfold summary, getitem, elements. subst s. run.
  cbn [lookup String.eqb Ascii.eqb Bool.eqb].
  destruct (lookup "brand" cpu); [|now cbn].
  run. destruct (lookup "logical_cores" cpu); [|now cbn].
  run. destruct (lookup "total_gb" ram); [|now cbn].
  run. cbn [truthy].
  destruct g as [|e es]; [now cbn|].
  run. cbn [lookup String.eqb Ascii.eqb Bool.eqb]. run.
  match goal with |- context [for_each (e :: es) gpu_line ?s0] =>
    destruct (gpu_loop_ok tag (e :: es) s0 F) as (st' & E & S);
    rewrite E
  end.
  cbn. split; [reflexivity | exact S].
Qed.

(** *** What leaves the configuration directory alone *)

Section Stores.

Lemma keeps_store_same {A} (m : M A) :
  (forall st, snd (m st) = st) -> keeps_store m.
Proof. intros H st. now rewrite H. Qed.

Lemma keeps_store_ret {A} (a : A) : keeps_store (ret a).
Proof. now intro. Qed.

Lemma keeps_store_raise {A} (e : exc) : keeps_store (@raise A e).
Proof. now intro. Qed.

Lemma keeps_store_sys_exit {A} (c : Z) : keeps_store (@sys_exit A c).
Proof. now intro. Qed.

Lemma keeps_store_lift {A} (a : answer A) : keeps_store (lift a).
Proof. intro st. now destruct a. Qed.

Lemma keeps_store_emit (ev : event) : keeps_store (emit ev).
Proof. now intro. Qed.

Lemma keeps_store_consult {A} (f : facility) (a : answer A) :
  keeps_store (consult f a).
Proof. intro st. now destruct a. Qed.

Lemma keeps_store_get_gpus : keeps_store get_gpus.
Proof. now intro. Qed.

Lemma keeps_store_set_gpus (g : list pyval) : keeps_store (set_gpus g).
Proof. now intro. Qed.

Lemma keeps_store_append_gpu (e : pyval) : keeps_store (append_gpu e).
Proof. now intro. Qed.

Lemma keeps_store_bind {A B} (m : M A) (k : A -> M B) :
  keeps_store m -> (forall a, keeps_store (k a)) -> keeps_store (bind m k).
Proof.
  intros Hm Hk st. unfold bind. pose proof (Hm st) as E.
  destruct (m st) as [[a|e|c] st']; cbn [snd] in *; try exact E.
  now rewrite Hk.
Qed.

Lemma keeps_store_try_except {A} (m : M A) (h : exc -> M A) :
  keeps_store m -> (forall e, keeps_store (h e)) ->
  keeps_store (try_except m h).
Proof.
  intros Hm Hh st. unfold try_except. pose proof (Hm st) as E.
  destruct (m st) as [[a|e|c] st']; cbn [snd] in *; try exact E.
  now rewrite Hh.
Qed.

Lemma keeps_store_try_pass (m : M unit) :
  keeps_store m -> keeps_store (try_pass m).
Proof.
  intros Hm st. unfold try_pass. pose proof (Hm st) as E.
  now destruct (m st) as [[a|e|c] st'].
Qed.

Lemma keeps_store_for_each {A} (xs : list A) (body : A -> M unit) :
  (forall x, keeps_store (body x)) -> keeps_store (for_each xs body).
Proof.
  intro Hb. induction xs as [|x xs IH]; cbn [for_each].
  - apply keeps_store_ret.
  - apply keeps_store_bind; [apply Hb | intro; exact IH].
Qed.

End Stores.

(** Breaks a goal [keeps_store m] along the structure of [m]. *)
Ltac storing :=
  repeat first
    [ apply keeps_store_bind; [|intro]
    | apply keeps_store_try_except; [|intro]
    | apply keeps_store_try_pass
    | apply keeps_store_for_each; intro
    | apply keeps_store_ret | apply keeps_store_raise
    | apply keeps_store_sys_exit | apply keeps_store_lift
    | apply keeps_store_get_gpus | apply keeps_store_set_gpus
    | apply keeps_store_append_gpu | apply keeps_store_consult
    | apply keeps_store_emit
    | match goal with
      | |- keeps_store (if ?b then _ else _) => destruct b
      | |- keeps_store (match ?x with _ => _ end) => destruct x
      | |- keeps_store (let (_, _) := ?x in _) => destruct x
      end ].

Lemma scan_system_keeps_store (h : Scanner.host) : keeps_store (scan_system h).
Proof.
  unfold scan_system, get_cpu_info, get_ram_info, get_disk_info,
    get_gpu_info, gputil_strategy, torch_strategy, wmic_strategy, print,
    logger.
  storing.
Qed.

Lemma report_keeps_store (m : machine) (backend_url : string) (d s : pyval) :
  keeps_store (report m backend_url d s).
Proof.
  unfold report, send_data, post, raise_for_status, on_failure, print,
    logger.
  storing.
Qed.

(** The steps of [identify_and_scan] once the identity is there: the
    outcome is decided by the CPU and RAM sections, and the configuration
    directory is as the identity step left it. *)
Lemma identify_and_scan_outcome (m : machine) (st : state) (d : pyval)
    (st1 : state) :
  get_or_create_device_id (ident m) st = (Ok d, st1) ->
  store (snd (identify_and_scan m st)) = store st1
  /\ (cpu_fails (hw m) ->
      fst (identify_and_scan m st) = Raise (key_error "brand"))
  /\ (~ cpu_fails (hw m) -> failed (virtual_memory (hw m)) ->
      fst (identify_and_scan m st) = Raise (key_error "total_gb"))
  /\ (~ cpu_fails (hw m) -> ~ failed (virtual_memory (hw m)) ->
      exists s, fst (identify_and_scan m st) = Ok (d, s)).
Proof.
  intro E.
  set (s0 := mkState (store st1) (gpus st1)
               ((log st1 ++ [Printed [Lit "✅ Device Identified: "; Fmt d]])
                ++ [Printed [Lit "Running hardware diagnostics (this may take a few seconds)..."]])).
  destruct (scan_system_sections (hw m) s0)
    as (os & cpu & ram & sto & g & tag & s2 & Es & Cc & Cr & F).
  pose proof (scan_system_keeps_store (hw m) s0) as Ks.
  rewrite Es in Ks. cbn [snd store s0] in Ks.
  assert (I : identify_and_scan m st
              = summary d (PyDict [("os", os); ("cpu", PyDict cpu);
                                   ("ram", PyDict ram); ("storage", sto);
                                   ("gpu", PyList g)]) s2).
  { rewrite identify_and_scan_steps. unfold bind at 1. rewrite E.
    unfold print. unfold bind at 1, emit at 1. unfold bind at 1, emit at 1.
    cbn [store gpus log]. fold s0. unfold bind at 1. now rewrite Es. }
  rewrite I.
  destruct (summary_outcome d os sto cpu ram g tag s2 F) as [O S].
  cbv zeta in O, S. rewrite S, Ks, O. clear O S.
  split; [reflexivity|].
  destruct Cc as [[Cf ->]|[Cn (b & l & Hb & Hl)]];
    destruct Cr as [[Rf ->]|[Rn (t & Ht)]];
    cbn [lookup]; rewrite ?Hb, ?Hl, ?Ht;
    repeat split; intros; try tauto; eauto.
Qed.

(** *** The requests of a run *)

Lemma requests_app (l1 l2 : list event) :
  requests (l1 ++ l2) = (requests l1 ++ requests l2)%list.
Proof. apply flat_map_app. Qed.

Lemma requests_none (l : list event) :
  Forall no_request l -> requests l = [].
Proof.
  induction 1 as [|e l He _ IH]; [reflexivity|].
  unfold requests in *. cbn [flat_map]. rewrite IH. now destruct e.
Qed.

Lemma run_scan_stops (m : machine) (backend_url : string) (st : state)
    (e : exc) :
  fst (identify_and_scan m st) = Raise e ->
  run_scan m backend_url st = (Raise e, snd (identify_and_scan m st)).
Proof.
  intro H. unfold run_scan, bind.
  destruct (identify_and_scan m st) as [r st1]. cbn [fst snd] in *.
  now subst r.
Qed.

(** The requests of a run: one, to the target URL with the payload, when
    identity and scan went through; none otherwise. *)
Lemma run_requests (m : machine) (backend_url : string) (st : state) :
  requests (new_events (run_scan m backend_url) st)
  = match fst (identify_and_scan m st) with
    | Ok (d, s) => [(target_url backend_url, payload d s)]
    | _ => []
    end.
Proof.
  destruct (new_events_spec _ _ st (identify_and_scan_quiet m)) as [E F].
  unfold new_events at 1, run_scan, bind.
  destruct (identify_and_scan m st) as [[[d s]|e|c] st1] eqn:I;
    cbn [fst snd] in *.
  - destruct (report_log m backend_url d s st1) as (bf & af & L & Fb & Fa).
    rewrite L, E, <- app_assoc, skipn_app, Nat.sub_diag, skipn_all.
    cbn [skipn app]. rewrite !requests_app.
    rewrite (requests_none _ F), (requests_none _ Fb).
    change (Posted (target_url backend_url) (payload d s) headers 10 :: af)
      with ([Posted (target_url backend_url) (payload d s) headers 10] ++ af)%list.
    rewrite requests_app, (requests_none _ Fa). reflexivity.
  - rewrite E, skipn_app, Nat.sub_diag, skipn_all. cbn [skipn app].
    now apply requests_none.
  - rewrite E, skipn_app, Nat.sub_diag, skipn_all. cbn [skipn app].
    now apply requests_none.
Qed.

(** X16. A run makes at most one request, never retried: exactly one, to
    the normalised URL and with the payload, when identity and scan went
    through, and none when they did not. *)
Theorem one_request_per_run (m : machine) (backend_url : string)
    (st : state) :
  requests (new_events (run_scan m backend_url) st)
  = match fst (identify_and_scan m st) with
    | Ok (d, s) => [(target_url backend_url, payload d s)]
    | _ => []
    end.
Proof. apply run_requests. Qed.

(** *** How a run ends *)

(** The outcome of the report follows the flag of [send_data]. *)
Lemma report_result (m : machine) (backend_url : string) (d s : pyval)
    (st : state) :
  (fst (report m backend_url d s st) = Ok tt
   /\ exists r body,
        net m (target_url backend_url) (payload d s) = Got r
        /\ (status_code r < 400 \/ 600 <= status_code r)
        /\ json r = Got body)
  \/ (fst (report m backend_url d s st) = Exit 1
      /\ ~ exists r body,
             net m (target_url backend_url) (payload d s) = Got r
             /\ (status_code r < 400 \/ 600 <= status_code r)
             /\ json r = Got body).
Proof.
  unfold report. run.
  match goal with |- context [send_data ?n ?b ?u ?s0] =>
    destruct (send_data_cases n b u s0) as (ok & v & rec & E & _ & I);
    rewrite E
  end.
  destruct ok; cbn.
  - left. split; [reflexivity|].
    destruct (proj1 I eq_refl) as (r & Hn & Hs & Hj). now exists r, v.
  - right. split; [reflexivity|].
    intros (r & body & Hn & Hs & Hj).
    revert E. unfold send_data, post, raise_for_status, on_failure. run.
    rewrite Hn.
    assert (C4 : (400 <=? status_code r) && (status_code r <? 500) = false)
      by (apply andb_false_iff; rewrite Z.leb_gt, Z.ltb_ge; lia).
    assert (C5 : (500 <=? status_code r) && (status_code r <? 600) = false)
      by (apply andb_false_iff; rewrite Z.leb_gt, Z.ltb_ge; lia).
    rewrite C4, C5. cbn. rewrite Hj. cbn. discriminate.
Qed.

Lemma identity_failure_stops (m : machine) (st : state) (e : exc)
    (st1 : state) :
  get_or_create_device_id (ident m) st = (Raise e, st1) ->
  identify_and_scan m st = (Raise e, st1).
Proof.
  intro E. rewrite identify_and_scan_steps. unfold bind at 1. now rewrite E.
Qed.

(** The outcome of identity and scan is a value or an exception. *)
Lemma identify_and_scan_result (m : machine) (st : state) :
  (exists d s, fst (identify_and_scan m st) = Ok (d, s))
  \/ (exists e, fst (identify_and_scan m st) = Raise e).
Proof.
  destruct (get_or_create_outcome (ident m) st)
    as [(e & st' & _ & _ & E)|(d & st1 & _ & E)].
  - right. exists e. now rewrite (identity_failure_stops _ _ _ _ E).
  - destruct (identify_and_scan_outcome m st d st1 E) as (_ & A & B & C).
    destruct (cpu_fails_dec (hw m)) as [Cf|Cn]; [right; eauto|].
    destruct (failed_dec (virtual_memory (hw m))) as [Rf|Rn];
      [right; eauto|].
    left. destruct (C Cn Rn) as [s Es]. eauto.
Qed.

(** Identity and scan go through exactly when the identity is obtained and
    neither the CPU probes nor the memory probe failed. *)
Lemma identify_and_scan_returns (m : machine) (st : state) :
  (exists d s, fst (identify_and_scan m st) = Ok (d, s))
  <-> (exists d st1, get_or_create_device_id (ident m) st = (Ok d, st1))
      /\ ~ cpu_fails (hw m) /\ ~ failed (virtual_memory (hw m)).
Proof.
  destruct (get_or_create_outcome (ident m) st)
    as [(e & st' & _ & _ & E)|(d & st1 & _ & E)].
  - rewrite (identity_failure_stops _ _ _ _ E). cbn [fst].
    split; [intros (? & ? & ?); discriminate|].
    intros [(d & st1 & E') _]. congruence.
  - destruct (identify_and_scan_outcome m st d st1 E) as (_ & A & B & C).
    split.
    + intros (d' & s & I).
      destruct (cpu_fails_dec (hw m)) as [Cf|Cn];
        [rewrite (A Cf) in I; discriminate|].
      destruct (failed_dec (virtual_memory (hw m))) as [Rf|Rn];
        [rewrite (B Cn Rf) in I; discriminate|].
      split; [now exists d, st1 | now split].
    + intros (_ & Cn & Rn). destruct (C Cn Rn) as [s Es]. now exists d, s.
Qed.

(** A run makes no request exactly when identity and scan did not go
    through. *)
Lemma no_request_iff (m : machine) (backend_url : string) (st : state) :
  requests (new_events (run_scan m backend_url) st) = []
  <-> ~ exists d s, fst (identify_and_scan m st) = Ok (d, s).
Proof.
  rewrite run_requests.
  destruct (fst (identify_and_scan m st)) as [[d s]|e|c].
  - split; [discriminate|]. intro N. elim N. now exists d, s.
  - split; [|reflexivity]. intros _ (? & ? & ?). discriminate.
  - split; [|reflexivity]. intros _ (? & ? & ?). discriminate.
Qed.

(** X17. [scan_system] never raises, but a run needs the CPU and RAM
    sections: when a CPU probe or the memory probe fails, the run makes no
    request and ends with status 1.  Whether a run makes its request does
    not depend on anything else in the scan: two machines with the same
    identity side, on which psutil answers the same about the CPU and the
    memory, both make the request or both make none, whatever the platform
    strings, the WMIC commands, the disk probe and the GPU facilities
    answer on either. *)
Theorem summary_needs_cpu_and_ram (m : machine) (backend_url : string)
    (st : state) :
  (cpu_fails (hw m) \/ failed (virtual_memory (hw m)) ->
   requests (new_events (run_scan m backend_url) st) = []
   /\ exit_status (fst (run_scan m backend_url st)) = 1)
  /\ (forall m' : machine,
        ident m' = ident m ->
        same_cpu_and_ram (hw m') (hw m) ->
        (requests (new_events (run_scan m' backend_url) st) = []
         <-> requests (new_events (run_scan m backend_url) st) = [])).
Proof.
  split.
  - intro F.
    assert (N : ~ exists d s, fst (identify_and_scan m st) = Ok (d, s)).
    { rewrite identify_and_scan_returns. intros (_ & Cn & Rn). tauto. }
    split; [now apply no_request_iff|].
    destruct (identify_and_scan_result m st) as [R|(e & I)];
      [now elim N|].
    now rewrite (run_scan_stops _ _ _ _ I).
  - intros m' Hi (P & L & Fq & U & V).
    rewrite !no_request_iff, !identify_and_scan_returns.
    unfold cpu_fails. now rewrite Hi, P, L, Fq, U, V.
Qed.

Lemma summary_needs_cpu_and_ram_witness :
  let m := mkMachine Demo.ident
             (Demo.laptop "Linux"
                (Failed (mkExc (OtherError "PermissionError") "denied"))
                (Got []) (Failed (Demo.no_module "torch"))
                (Failed (Demo.no_module "wmic")))
             Demo.accepting in
  requests (new_events (run_scan m "http://host:3001") blank) = []
  /\ exit_status (fst (run_scan m "http://host:3001" blank)) = 1.
Proof.
  intro m.
  exact (proj1 (summary_needs_cpu_and_ram m "http://host:3001" blank)
           (or_introl (or_intror (or_intror (or_intror I))))).
Defined.

(** X18. A run ends with status 0 or 1, and with 0 exactly when identity
    and scan went through and the endpoint answered the request with a
    status outside 400..599 and a body that parses as JSON. *)
Theorem exit_status_of_a_run (m : machine) (backend_url : string)
    (st : state) :
  (exit_status (fst (run_scan m backend_url st)) = 0
   \/ exit_status (fst (run_scan m backend_url st)) = 1)
  /\ (exit_status (fst (run_scan m backend_url st)) = 0
      <-> exists d s r body,
            fst (identify_and_scan m st) = Ok (d, s)
            /\ net m (target_url backend_url) (payload d s) = Got r
            /\ (status_code r < 400 \/ 600 <= status_code r)
            /\ json r = Got body).
Proof.
  destruct (identify_and_scan_result m st) as [(d & s & I)|(e & I)].
  - rewrite (run_scan_report _ _ _ _ _ I).
    destruct (report_result m backend_url d s (snd (identify_and_scan m st)))
      as [[R (r & body & H)]|[R N]]; rewrite R; cbn [exit_status].
    + split; [now left|]. split; [intros _|reflexivity].
      now exists d, s, r, body.
    + split; [now right|]. split; [discriminate|].
      intros (d' & s' & r & body & I' & H). exfalso. apply N.
      rewrite I in I'. inversion I'; subst d' s'. now exists r, body.
  - rewrite (run_scan_stops _ _ _ _ I). cbn [fst exit_status].
    split; [now right|]. split; [discriminate|].
    intros (d & s & r & body & I' & _). congruence.
Qed.

(** *** The identity from one run to the next *)

(** A run leaves the configuration directory as its identity step did. *)
Lemma run_scan_store (m : machine) (backend_url : string) (st : state) :
  store (snd (run_scan m backend_url st))
  = store (snd (get_or_create_device_id (ident m) st)).
Proof.
  destruct (get_or_create_device_id (ident m) st) as [[d|e|c] st1] eqn:E;
    cbn [snd].
  - destruct (identify_and_scan_outcome m st d st1 E) as (S & _).
    unfold run_scan, bind.
    destruct (identify_and_scan m st) as [[[d' s]|e|c] s1]; cbn [snd] in *;
      try exact S.
    now rewrite report_keeps_store.
  - unfold run_scan, bind.
    now rewrite (identity_failure_stops _ _ _ _ E).
  - exfalso.
    destruct (get_or_create_outcome (ident m) st)
      as [(e & st' & _ & _ & E')|(d & st' & _ & E')]; congruence.
Qed.

(** The device id of a request is the one the identity step returned. *)
Lemma request_identity (m : machine) (backend_url : string) (st : state)
    (d : pyval) (st1 : state) (u : string) (b : pyval) :
  get_or_create_device_id (ident m) st = (Ok d, st1) ->
  In (u, b) (requests (new_events (run_scan m backend_url) st)) ->
  exists s, b = payload d s.
Proof.
  intros E H. rewrite run_requests in H.
  destruct (identify_and_scan_outcome m st d st1 E) as (_ & A & B & C).
  destruct (cpu_fails_dec (hw m)) as [Cf|Cn];
    [rewrite (A Cf) in H; contradiction H|].
  destruct (failed_dec (virtual_memory (hw m))) as [Rf|Rn];
    [rewrite (B Cn Rf) in H; contradiction H|].
  destruct (C Cn Rn) as [s Es]. rewrite Es in H.
  destruct H as [H|[]]. inversion H. now exists s.
Qed.

(** X19. The identity holds from one run to the next: when a run
    generates an identifier and can write it (the file being absent, or
    readable), the request of that run and the request of the next run,
    on whatever machine state and backend, carry that identifier. *)
Theorem identity_is_kept_across_runs (m1 m2 : machine) (url1 url2 : string)
    (st : state) :
  unusable (store st) ->
  (store st = NoDir -> makedirs (ident m1) = Got tt) ->
  (forall f, store st = Dir (Some f) -> readable f = true) ->
  write (ident m1) = WriteOk ->
  forall u b,
    In (u, b)
       (requests (new_events (run_scan m1 url1) st)
        ++ requests (new_events (run_scan m2 url2)
                       (snd (run_scan m1 url1 st)))) ->
    exists s, b = payload (PyStr (new_uuid (ident m1))) s.
Proof.
  intros U D R W u b H.
  destruct (generate (ident m1) st U D) as [l E].
  apply in_app_or in H. destruct H as [H|H].
  - exact (request_identity m1 url1 st _ _ u b E H).
  - pose proof (run_scan_store m1 url1 st) as S. rewrite E in S.
    cbn [snd store] in S.
    assert (P : persisted (ident m1) (store st)
                = Dir (Some (mkFile true (Some (identity_record (ident m1)))))).
    { unfold persisted. rewrite W.
      destruct (store st) as [|[f|]] eqn:Sf; [reflexivity| |reflexivity].
      now rewrite (R f eq_refl). }
    rewrite P in S.
    pose proof (read_back (ident m2) (snd (run_scan m1 url1 st)) _
                  (PyStr (new_uuid (ident m1))) S eq_refl) as E2.
    exact (request_identity m2 url2 _ _ _ u b E2 H).
Qed.

Lemma identity_is_kept_across_runs_witness :
  let m := Demo.machine Demo.accepting in
  Forall (fun r => exists s,
            snd r = payload (PyStr "00000000-0000-4000-8123-456789abcdef") s)
    (requests (new_events (run_scan m "http://host:3001") blank)
     ++ requests (new_events (run_scan m "http://host:3001/")
                    (snd (run_scan m "http://host:3001" blank)))).
Proof.
  intro m. apply Forall_forall. intros [u b].
  exact (identity_is_kept_across_runs m m "http://host:3001"
           "http://host:3001/" blank I (fun _ => eq_refl)
           (fun f E => match E in _ = c return
                         match c with
                         | Dir (Some _) => _
                         | _ => True
                         end
                       with eq_refl => I end)
           eq_refl u b).
Defined.

(** *** The dashboard link *)

(** X20. The link printed on success is the same whether the backend was
    given as a base URL or with a path under [/api]: when [/api] does not
    occur before that path, the link is the base, [/?deviceId=] and the
    device id. *)
Theorem dashboard_link_base (p rest : string) (d : pyval) :
  Text.contains "/api" (p ++ "/ap") = false ->
  final_link (p ++ "/api" ++ rest) d = [Lit p; Lit "/?deviceId="; Fmt d]
  /\ final_link p d = [Lit p; Lit "/?deviceId="; Fmt d].
Proof.
  intro H. unfold final_link, Text.split. cbv zeta. split.
  - pose proof (split_go_first "/ap" "i" p rest [] H) as S.
    cbv zeta in S. change ("/ap" ++ "i") with "/api" in S. now rewrite S.
  - rewrite (split_go_none _ _ _ (contains_app_false _ _ _ H)). reflexivity.
Qed.

Lemma dashboard_link_base_witness :
  final_link "http://host:3001/api/device/register" (PyStr "abc")
  = [Lit "http://host:3001"; Lit "/?deviceId="; Fmt (PyStr "abc")]
  /\ final_link "http://host:3001" (PyStr "abc")
     = [Lit "http://host:3001"; Lit "/?deviceId="; Fmt (PyStr "abc")].
Proof.
  exact (dashboard_link_base "http://host:3001" "/device/register"
           (PyStr "abc") eq_refl).
Defined.

End CliFacts.
